(** * mcp-alerts: signed webhook intake and Slack delivery

    A shallow embedding of the delivery core of the repository:

    - [utils/verifier.js]   signature generation and verification, raw-body
                            capture and the Express verification middleware;
    - the legacy signature helper (an older [verifySignature] that compares
      the raw header strings);
    - [utils/slackClient.js] the one-shot webhook sender;
    - [utils/formatters.js] the message renderer;
    - [app.js]              the Socket Mode connectivity flag, its lifecycle
                            handlers, the health endpoints and the webhook
                            route handler.

    JavaScript strings are modelled by their UTF-8 text ([string]; where
    the code looks at UTF-16 code units, these are computed from it), Node
    [Buffer]s by [list byte].  Effects (console output, HTTP responses,
    outbound calls, exceptions, the process-wide connectivity flag) are
    threaded through a small state/exception/trace monad. *)

From Stdlib Require Import Strings.String Strings.Ascii Strings.Byte List NArith ZArith Bool Lia.
From Stdlib Require Import DecimalString.
Import ListNotations.

Local Open Scope string_scope.
Local Open Scope list_scope.

(* ================================================================= *)
(** ** Node's [crypto] primitives used by the verifier *)

(** [crypto.createHmac('sha256', key).update(msg).digest()] is HMAC
    (RFC 2104) over SHA-256 (FIPS 180-4).  32-bit words are kept in [N] with
    the wrap-around written out. *)
Module Crypto.

Local Open Scope N_scope.

Definition wrap32 (x : N) : N := x mod 2 ^ 32.

Definition plus32 (x y : N) : N := wrap32 (x + y).

Definition rotr (x n : N) : N :=
  N.lor (N.shiftr x n) (wrap32 (N.shiftl x (32 - n))).

Definition neg32 (x : N) : N := N.lxor x (2 ^ 32 - 1).

Definition choose (e f g : N) : N := N.lxor (N.land e f) (N.land (neg32 e) g).

Definition majority (a b c : N) : N :=
  N.lxor (N.lxor (N.land a b) (N.land a c)) (N.land b c).

Definition big_sigma0 (a : N) : N := N.lxor (N.lxor (rotr a 2) (rotr a 13)) (rotr a 22).
Definition big_sigma1 (e : N) : N := N.lxor (N.lxor (rotr e 6) (rotr e 11)) (rotr e 25).
Definition small_sigma0 (x : N) : N := N.lxor (N.lxor (rotr x 7) (rotr x 18)) (N.shiftr x 3).
Definition small_sigma1 (x : N) : N := N.lxor (N.lxor (rotr x 17) (rotr x 19)) (N.shiftr x 10).

(** The round constants and the initial hash value are the leading 32
    fractional bits of the cube roots, respectively square roots, of the first
    primes; they are computed here rather than tabulated. *)
Fixpoint integer_root (k n : N) (bits : nat) (r : N) : N :=
  match bits with
  | O => r
  | S b =>
      let c := N.lor r (N.shiftl 1 (N.of_nat b)) in
      integer_root k n b (if c ^ k <=? n then c else r)
  end.

Definition fractional_root_bits (k p : N) : N :=
  wrap32 (integer_root k (p * 2 ^ (32 * k)) 40 0).

Definition is_prime (n : N) : bool :=
  (2 <=? n) &&
  forallb (fun d => negb (n mod (N.of_nat d) =? 0)) (seq 2 (N.to_nat n - 2)).

Definition first_primes (count : nat) : list N :=
  firstn count (filter is_prime (map N.of_nat (seq 2 320))).

Definition round_constants : list N :=
  Eval vm_compute in map (fractional_root_bits 3) (first_primes 64).

Definition initial_hash : list N :=
  Eval vm_compute in map (fractional_root_bits 2) (first_primes 8).

(** Message schedule, most recent word first. *)
Fixpoint extend_schedule (steps : nat) (ws : list N) : list N :=
  match steps with
  | O => ws
  | S k =>
      let w := plus32 (plus32 (small_sigma1 (nth 1 ws 0)) (nth 6 ws 0))
                      (plus32 (small_sigma0 (nth 14 ws 0)) (nth 15 ws 0)) in
      extend_schedule k (w :: ws)
  end.

Definition schedule (block_words : list N) : list N :=
  rev (extend_schedule 48 (rev block_words)).

Definition round (st : list N) (kw : N * N) : list N :=
  match st with
  | [a; b; c; d; e; f; g; h] =>
      let t1 := plus32 (plus32 (plus32 h (big_sigma1 e)) (plus32 (choose e f g) (fst kw))) (snd kw) in
      let t2 := plus32 (big_sigma0 a) (majority a b c) in
      [plus32 t1 t2; a; b; c; plus32 d t1; e; f; g]
  | _ => st
  end.

Definition compress (h : list N) (block_words : list N) : list N :=
  map (fun p => plus32 (fst p) (snd p))
      (combine h (fold_left round (combine round_constants (schedule block_words)) h)).

Fixpoint words_of_bytes (bs : list N) : list N :=
  match bs with
  | b3 :: b2 :: b1 :: b0 :: rest =>
      (b3 * 2 ^ 24 + b2 * 2 ^ 16 + b1 * 2 ^ 8 + b0) :: words_of_bytes rest
  | _ => []
  end.

Definition bytes_of_word (x : N) : list N :=
  [N.shiftr x 24 mod 256; N.shiftr x 16 mod 256; N.shiftr x 8 mod 256; x mod 256].

Definition big_endian_64 (n : N) : list N :=
  map (fun i => N.shiftr n (8 * N.of_nat (7 - i)) mod 256) (seq 0 8).

Definition pad (msg : list N) : list N :=
  let len := N.of_nat (length msg) in
  msg ++ [128] ++ repeat 0 (N.to_nat ((119 - len mod 64) mod 64))
      ++ big_endian_64 (8 * len).

Fixpoint absorb (blocks : nat) (h : list N) (bs : list N) : list N :=
  match blocks with
  | O => h
  | S k => absorb k (compress h (words_of_bytes (firstn 64 bs))) (skipn 64 bs)
  end.

Definition sha256_N (msg : list N) : list N :=
  let padded := pad msg in
  flat_map bytes_of_word (absorb (length padded / 64) initial_hash padded).

Definition byte_of_N (n : N) : byte :=
  match Byte.of_N (n mod 256) with
  | Some b => b
  | None => x00
  end.

Definition sha256 (msg : list byte) : list byte :=
  map byte_of_N (sha256_N (map Byte.to_N msg)).

Definition xor_pad (c : N) (key : list N) : list N :=
  map (fun k => N.lxor k c) (key ++ repeat 0 (64 - length key)).

Definition hmac_sha256 (key msg : list byte) : list byte :=
  let k := map Byte.to_N key in
  let k := if (64 <? length k)%nat then sha256_N k else k in
  let inner := sha256_N (xor_pad 54 k ++ map Byte.to_N msg) in
  map byte_of_N (sha256_N (xor_pad 92 k ++ inner)).

End Crypto.

(* ================================================================= *)
(** ** Hex encoding and decoding *)

Module Hex.

(** [digest('hex')] writes two lowercase digits per byte. *)
Definition digit (n : N) : ascii :=
  nth (N.to_nat n) (list_ascii_of_string "0123456789abcdef") "0"%char.

Definition encode_byte (b : byte) : string :=
  let n := Byte.to_N b in
  String (digit (n / 16)) (String (digit (n mod 16)) EmptyString).

Fixpoint encode (bs : list byte) : string :=
  match bs with
  | [] => EmptyString
  | b :: rest => encode_byte b ++ encode rest
  end.

(** Value of one hex digit; both cases are accepted when decoding. *)
Definition value (c : ascii) : option N :=
  let n := N_of_ascii c in
  if (48 <=? n)%N && (n <=? 57)%N then Some (n - 48)%N
  else if (97 <=? n)%N && (n <=? 102)%N then Some (n - 87)%N
  else if (65 <=? n)%N && (n <=? 70)%N then Some (n - 55)%N
  else None.

(** A byte of the form 10xxxxxx. *)
Definition continuation (n : N) : bool := (128 <=? n)%N && (n <? 192)%N.

(** The UTF-16 code units of the JavaScript string whose UTF-8 text is [s].
    An unpaired surrogate is read from its three-byte form; a byte that
    starts no well-formed sequence stands for U+FFFD. *)
Fixpoint code_units (s : string) : list N :=
  match s with
  | EmptyString => []
  | String b0 rest =>
      let n0 := N_of_ascii b0 in
      if (n0 <? 128)%N then n0 :: code_units rest
      else
        match rest with
        | String b1 rest1 =>
            let n1 := N_of_ascii b1 in
            if (192 <=? n0)%N && (n0 <? 224)%N then
              if continuation n1
              then ((n0 mod 32) * 64 + n1 mod 64)%N :: code_units rest1
              else 65533%N :: code_units rest
            else
              match rest1 with
              | String b2 rest2 =>
                  let n2 := N_of_ascii b2 in
                  if (224 <=? n0)%N && (n0 <? 240)%N then
                    if continuation n1 && continuation n2
                    then ((n0 mod 16) * 4096 + (n1 mod 64) * 64 + n2 mod 64)%N
                           :: code_units rest2
                    else 65533%N :: code_units rest
                  else
                    match rest2 with
                    | String b3 rest3 =>
                        let n3 := N_of_ascii b3 in
                        if (240 <=? n0)%N && (n0 <? 248)%N
                           && continuation n1 && continuation n2 && continuation n3
                        then
                          let point := ((n0 mod 8) * 262144 + (n1 mod 64) * 4096
                                        + (n2 mod 64) * 64 + n3 mod 64 - 65536)%N in
                          (55296 + point / 1024)%N :: (56320 + point mod 1024)%N
                            :: code_units rest3
                        else 65533%N :: code_units rest
                    | EmptyString => 65533%N :: code_units rest
                    end
              | EmptyString => 65533%N :: code_units rest
              end
        | EmptyString => [65533%N]
        end
  end.

(** Pairs of hex digits, each digit taken from the low byte of a code unit;
    decoding stops at the first pair that is not hexadecimal, and a trailing
    single unit is dropped. *)
Fixpoint decode_units (units : list N) : list byte :=
  match units with
  | hi :: lo :: rest =>
      match value (ascii_of_N (hi mod 256)), value (ascii_of_N (lo mod 256)) with
      | Some h, Some l => Crypto.byte_of_N (16 * h + l) :: decode_units rest
      | _, _ => []
      end
  | _ => []
  end.

(** [Buffer.from(s, 'hex')] *)
Definition decode (s : string) : list byte := decode_units (code_units s).

End Hex.

Local Open Scope string_scope.

Definition utf8 (s : string) : list byte := list_byte_of_string s.


(* ================================================================= *)
(** ** JavaScript values, effects and the process state *)

#[local] Set Warnings "-register-all".

(** Parsed JSON, as [req.body] holds it after [bodyParser.json]. *)
Inductive json :=
| JNull
| JBool (b : bool)
| JNumber (z : Z)
| JString (s : string)
| JArray (items : list json)
| JObject (fields : list (string * json)).

(** Property read [o.name]; [None] is [undefined].  A later duplicate key
    wins, as in [JSON.parse]. *)
Fixpoint lookup_field (name : string) (fields : list (string * json)) : option json :=
  match fields with
  | [] => None
  | (k, v) :: rest =>
      match lookup_field name rest with
      | Some later => Some later
      | None => if String.eqb k name then Some v else None
      end
  end.

Definition property (name : string) (v : json) : option json :=
  match v with
  | JObject fields => lookup_field name fields
  | _ => None
  end.

(** [String(v)], which a template literal applies to each value it
    interpolates, throws a [TypeError] for an object that has a key
    [toString] of its own (the value of that key is not a function), and
    for an array one of whose elements it throws for.  The same holds of
    [new Date(v)]. *)
Fixpoint throws_on_ToString (j : json) : bool :=
  match j with
  | JObject fields =>
      match lookup_field "toString" fields with
      | Some _ => true
      | None => false
      end
  | JArray items =>
      (fix some (xs : list json) : bool :=
         match xs with
         | [] => false
         | x :: rest => throws_on_ToString x || some rest
         end) items
  | JNull | JBool _ | JNumber _ | JString _ => false
  end.

Definition cannot_convert (v : option json) : bool :=
  match v with
  | Some j => throws_on_ToString j
  | None => false
  end.

(** Some object inside [j], at any depth, has a key [toString]. *)
Fixpoint mentions_toString (j : json) : bool :=
  match j with
  | JObject fields =>
      match lookup_field "toString" fields with
      | Some _ => true
      | None => false
      end
      || (fix some (fs : list (string * json)) : bool :=
            match fs with
            | [] => false
            | (_, v) :: rest => mentions_toString v || some rest
            end) fields
  | JArray items =>
      (fix some (xs : list json) : bool :=
         match xs with
         | [] => false
         | x :: rest => mentions_toString x || some rest
         end) items
  | JNull | JBool _ | JNumber _ | JString _ => false
  end.

(** No object inside [v] has a key [toString]; [undefined] is plain. *)
Definition plain (v : option json) : bool :=
  match v with
  | Some j => negb (mentions_toString j)
  | None => true
  end.

(** The value returned by [formatSlackMessage]. *)
Record RenderedMessage := {
  fallbackText : string;
  blocks : list json;
  attachments : list json
}.

(** The argument of [chat.postMessage] and of [sendWebhookMessage]. *)
Record SlackPayload := {
  channel : option string;
  text : string;
  payload_blocks : list json;
  payload_attachments : list json
}.

(** Values that are thrown or that reject a promise: [Error] instances, and
    the two plain objects [sendWebhookMessage] rejects with
    ([{success: false, statusCode, response}] and [{success: false, error}]),
    which have no [message] property. *)
Inductive thrown :=
| JsError (message : string)
| RejectedStatus (statusCode : Z) (response : string)
| RejectedRequest (error : string).

(** [e.message]; [None] is [undefined]. *)
Definition message_of (e : thrown) : option string :=
  match e with
  | JsError m => Some m
  | _ => None
  end.

(** What the HTTPS request of [sendWebhookMessage] can come to: a response,
    an ['error'] event on the request, or an exception raised while the
    request is set up (inside the promise executor). *)
Inductive https_outcome :=
| HttpsResponse (statusCode : Z) (responseData : string)
| HttpsError (message : string)
| HttpsThrows (message : string).

(** Socket Mode lifecycle notifications, the Bolt error handler, and the
    completion of [slackApp.start()] in the startup block. *)
Inductive lifecycle :=
| connecting
| authenticated
| disconnecting
| reconnecting
| bolt_error
| start_resolved.

Inductive level := log | warn | error.

(** Observable actions, in the order they happen.  [Console] carries the
    message as the source writes it: a template literal is kept with its
    placeholders, and further arguments of the call are left out. *)
Inductive event :=
| Console (l : level) (text : string)
| Respond (status : Z) (body : string)
| ChatPostMessage (payload : SlackPayload)
| SendWebhookMessage (webhookUrl : option string) (payload : SlackPayload)
| TimingSafeEqual (a b : list byte).

Record process_env := {
  MCP_WEBHOOK_SIGNING_SECRET : option string;
  SLACK_CHANNEL : option string;
  SLACK_WEBHOOK_URL : option string
}.

(** What a request handler depends on besides the request and the process
    state: the environment variables, the Slack client, the network, and
    the lifecycle notifications that arrive while the handler waits.  The
    outcome of an outbound call may depend on when it is made (the number
    of earlier waits of the process) and on what is sent.
    The renderer [formatSlackMessage] of [utils/formatters.js] is kept
    abstract as well: the route uses nothing of it but that it returns a
    message or throws (it throws a [TypeError] when [eventData] has no
    [carrier] or [customer]). *)
Record world := {
  env : process_env;
  formatSlackMessage : option json -> option json -> option json -> thrown + RenderedMessage;
  chat_postMessage : nat -> SlackPayload -> option thrown;
  https_request : nat -> string -> SlackPayload -> https_outcome;
  notifications_during : nat -> list lifecycle
}.

(** The process state: the module-level [socketModeConnected] of [app.js]
    and the number of waits completed so far. *)
Record state := {
  socketModeConnected : bool;
  waits : nat
}.

Inductive completion (A : Type) :=
| Returned (a : A)
| Threw (e : thrown).
Arguments Returned {A} a.
Arguments Threw {A} e.

Definition M (A : Type) : Type := world -> state -> completion A * state * list event.

Definition ret {A} (a : A) : M A := fun _ s => (Returned a, s, []).

Definition bind {A B} (m : M A) (k : A -> M B) : M B :=
  fun w s =>
    match m w s with
    | (Returned a, s1, ev1) =>
        match k a w s1 with
        | (r, s2, ev2) => (r, s2, (ev1 ++ ev2)%list)
        end
    | (Threw e, s1, ev1) => (Threw e, s1, ev1)
    end.

Definition throw {A} (e : thrown) : M A := fun _ s => (Threw e, s, []).

(** [try { m } catch (e) { handler e }] *)
Definition try_catch {A} (m : M A) (handler : thrown -> M A) : M A :=
  fun w s =>
    match m w s with
    | (Returned a, s1, ev1) => (Returned a, s1, ev1)
    | (Threw e, s1, ev1) =>
        match handler e w s1 with
        | (r, s2, ev2) => (r, s2, (ev1 ++ ev2)%list)
        end
    end.

Definition emit (e : event) : M unit := fun _ s => (Returned tt, s, [e]).

Definition ask {A} (f : world -> A) : M A := fun w s => (Returned (f w), s, []).

Definition read_socketModeConnected : M bool :=
  fun _ s => (Returned (socketModeConnected s), s, []).

Definition write_socketModeConnected (b : bool) : M unit :=
  fun _ s => (Returned tt, {| socketModeConnected := b; waits := waits s |}, []).

Declare Scope js_scope.
Delimit Scope js_scope with js.
Notation "x <- m ;; k" := (bind m (fun x => k))
  (at level 61, m at next level, right associativity) : js_scope.
Notation "m ;; k" := (bind m (fun _ => k))
  (at level 61, right associativity) : js_scope.
Local Open Scope js_scope.

Definition console (l : level) (text : string) : M unit := emit (Console l text).

(** [res.status(status).send(body)] *)
Definition respond (status : Z) (body : string) : M unit := emit (Respond status body).

Definition value_of {A} (r : completion A * state * list event) : completion A := fst (fst r).
Definition state_of {A} (r : completion A * state * list event) : state := snd (fst r).
Definition events_of {A} (r : completion A * state * list event) : list event := snd r.

(** JavaScript truthiness of a string-or-undefined: [Some s] when the value
    is a non-empty string. *)
Definition truthy (v : option string) : option string :=
  match v with
  | Some s => if String.eqb s "" then None else Some s
  | None => None
  end.

Definition quoted (s : string) : string :=
  String "034"%char (s ++ String "034"%char EmptyString).

(* ----------------------------------------------------------------- *)
(** *** Connectivity flag ([app.js], lifecycle handlers and startup) *)

Definition initial_state : state := {| socketModeConnected := false; waits := 0 |}.

(** [slackApp.error((error) => ...)] *)
Definition on_error : M unit :=
  console error "Socket Mode error:" ;;
  write_socketModeConnected false.

(** [slackApp.client.on('connecting', ...)] *)
Definition on_connecting : M unit :=
  console log "Socket Mode connecting..." ;;
  write_socketModeConnected false.

(** [slackApp.client.on('authenticated', ...)] *)
Definition on_authenticated : M unit :=
  console log "Socket Mode authenticated" ;;
  write_socketModeConnected true.

(** [slackApp.client.on('disconnecting', ...)] *)
Definition on_disconnecting : M unit :=
  console log "Socket Mode disconnecting..." ;;
  write_socketModeConnected false.

(** [slackApp.client.on('reconnecting', ...)] *)
Definition on_reconnecting : M unit :=
  console log "Socket Mode reconnecting..." ;;
  write_socketModeConnected false.

(** The startup block after [await slackApp.start()] has resolved, up to
    the start of the Express server.  (When [start()] rejects the process
    exits.  The emoji that opens the first message is dropped.) *)
Definition on_start_resolved : M unit :=
  write_socketModeConnected true ;;
  console log "Bolt app is running in Socket Mode!" ;;
  console log "Supported event types:\n${SUPPORTED_EVENTS.map(e => `- ${e}`).join('\n')}".

Definition notify (n : lifecycle) : M unit :=
  match n with
  | connecting => on_connecting
  | authenticated => on_authenticated
  | disconnecting => on_disconnecting
  | reconnecting => on_reconnecting
  | bolt_error => on_error
  | start_resolved => on_start_resolved
  end.

Fixpoint notify_all (ns : list lifecycle) : M unit :=
  match ns with
  | [] => ret tt
  | n :: rest => notify n ;; notify_all rest
  end.

(** [await call]: the handler is suspended; lifecycle callbacks that fire
    meanwhile run to completion; then the call's outcome is delivered. *)
Definition await {A} (outcome : world -> nat -> A) : M A :=
  fun w s =>
    let t := waits s in
    match notify_all (notifications_during w t) w
            {| socketModeConnected := socketModeConnected s; waits := S t |} with
    | (_, s1, ev) => (Returned (outcome w t), s1, ev)
    end.

(* ----------------------------------------------------------------- *)
(** *** Requests *)

(** The Express request object as the webhook route's middlewares see it:
    [bodyParser.json] is mounted on the route's path and sets [req.body]
    (to [{}] at least) before anything else runs.  Header names are stored in
    lower case, as Node delivers them. *)
Record request := {
  headers : list (string * string);
  ip : string;
  rawBody : option string;
  body : json
}.

Definition lower_ascii (c : ascii) : ascii :=
  let n := N_of_ascii c in
  if (65 <=? n)%N && (n <=? 90)%N then ascii_of_N (n + 32) else c.

Fixpoint lowercase (s : string) : string :=
  match s with
  | EmptyString => EmptyString
  | String c rest => String (lower_ascii c) (lowercase rest)
  end.

Fixpoint header_value (name : string) (hs : list (string * string)) : option string :=
  match hs with
  | [] => None
  | (k, v) :: rest => if String.eqb k name then Some v else header_value name rest
  end.

(** [req.get(name)]: case-insensitive header lookup. *)
Definition req_get (req : request) (name : string) : option string :=
  header_value (lowercase name) (headers req).

Fixpoint buffer_eqb (a b : list byte) : bool :=
  match a, b with
  | [], [] => true
  | x :: a', y :: b' => Byte.eqb x y && buffer_eqb a' b'
  | _, _ => false
  end.

(** [crypto.timingSafeEqual(a, b)]: throws a [RangeError] when the byte
    lengths differ, otherwise tells whether the buffers are equal. *)
Definition timingSafeEqual (a b : list byte) : M bool :=
  emit (TimingSafeEqual a b) ;;
  if Nat.eqb (List.length a) (List.length b) then ret (buffer_eqb a b)
  else throw (JsError "Input buffers must have the same byte length").

(** [s.replace(/^p/, '')] for a literal [p]: [Some] of the rest when [s]
    starts with [p]. *)
Fixpoint strip_prefix (p s : string) : option string :=
  match p, s with
  | EmptyString, _ => Some s
  | String a p', String b s' => if Ascii.eqb a b then strip_prefix p' s' else None
  | String _ _, EmptyString => None
  end.

(** [s.replace(/^sha256=/, '')] *)
Definition without_tag (s : string) : string :=
  match strip_prefix "sha256=" s with
  | Some rest => rest
  | None => s
  end.

(* ================================================================= *)
(** ** [utils/verifier.js] *)

Module Verifier.

(** [generateSignature(payload, secret)].  The parameters are strings here,
    so of the two argument checks only the empty secret can fail. *)
Definition generateSignature (payload secret : string) : M string :=
  if String.eqb secret "" then throw (JsError "Secret must be a non-empty string.")
  else
    let signature := Hex.encode (Crypto.hmac_sha256 (utf8 secret) (utf8 payload)) in
    ret ("sha256=" ++ signature).

(** [verifySignature(payload, signature, secret)] *)
Definition verifySignature (payload signature secret : string) : M bool :=
  if String.eqb payload "" || String.eqb signature "" || String.eqb secret ""
  then ret false
  else
    expectedSignature <- generateSignature payload secret ;;
    let expected := without_tag expectedSignature in
    let received := without_tag signature in
    let expectedBuffer := Hex.decode expected in
    let receivedBuffer := Hex.decode received in
    if negb (Nat.eqb (List.length expectedBuffer) (List.length receivedBuffer)) then
      console error "Signature length mismatch: received ${receivedBuffer.length}, calculated ${expectedBuffer.length}" ;;
      ret false
    else
      timingSafeEqual expectedBuffer receivedBuffer.

(** The callback returned by [getExpressVerifyCallback()], applied to the
    request, the captured buffer and the charset.  The body is UTF-8 text,
    so [buf.toString(encoding || 'utf8')] is the buffer read as a string. *)
Definition getExpressVerifyCallback (req : request) (buf : string) (encoding : option string)
  : request :=
  if negb (String.eqb buf "") then
    {| headers := headers req; ip := ip req; rawBody := Some buf; body := body req |}
  else req.

(** [mcpVerifyMiddleware(req, res, next)] *)
Definition mcpVerifyMiddleware (req : request) (next : M unit) : M unit :=
  secret <- ask (fun w => MCP_WEBHOOK_SIGNING_SECRET (env w)) ;;
  match truthy secret with
  | None =>
      console error "[MCP Verify Middleware] Error: MCP_WEBHOOK_SIGNING_SECRET is not set. Denying request." ;;
      respond 500 "Webhook signing secret not configured."
  | Some secret =>
      match truthy (req_get req "MCP-Signature") with
      | None =>
          console warn "[MCP Verify Middleware] Warning: Missing MCP-Signature header from IP: ${req.ip}. Denying request." ;;
          respond 400 "Missing signature header."
      | Some signatureHeader =>
          match truthy (rawBody req) with
          | None =>
              console error "[MCP Verify Middleware] Error: req.rawBody is not available. Ensure express.json({ verify: ... }) is used correctly for this route. Denying request." ;;
              respond 500 "Raw request body not available for verification."
          | Some raw =>
              console log "[DEBUG] req.rawBody:" ;;
              isValid <- verifySignature raw signatureHeader secret ;;
              if isValid then
                console log "[MCP Verify Middleware] Signature verified successfully for request from IP: ${req.ip}" ;;
                next
              else
                console warn "[MCP Verify Middleware] Invalid signature for request from IP: ${req.ip}. Received signature: ${signatureHeader}. Denying request." ;;
                respond 401 "Invalid signature."
          end
      end
  end.

(** [generateTestSignature(rawBodyString)] *)
Definition generateTestSignature (rawBodyString : string) : M string :=
  secret <- ask (fun w => MCP_WEBHOOK_SIGNING_SECRET (env w)) ;;
  match truthy secret with
  | None => throw (JsError "MCP_WEBHOOK_SIGNING_SECRET not set")
  | Some secret => generateSignature rawBodyString secret
  end.

End Verifier.

(* ================================================================= *)
(** ** The legacy signature helper

    An older [verifySignature]/[generateSignature] pair that no other file
    of the repository imports.  It compares the header and the expected
    value as raw strings, without stripping the tag or decoding hex. *)

Module LegacySignature.

Definition verifySignature (payload signature secret : string) : M bool :=
  if String.eqb payload "" || String.eqb signature "" || String.eqb secret ""
  then ret false
  else
    let expectedSignature :=
      "sha256=" ++ Hex.encode (Crypto.hmac_sha256 (utf8 secret) (utf8 payload)) in
    timingSafeEqual (utf8 signature) (utf8 expectedSignature).

(** The payload is a string here, so it is signed as it is. *)
Definition generateSignature (payload secret : string) : M string :=
  ret ("sha256=" ++ Hex.encode (Crypto.hmac_sha256 (utf8 secret) (utf8 payload))).

End LegacySignature.

(* ================================================================= *)
(** ** [utils/slackClient.js] *)

Module SlackClient.

Record webhook_response := {
  success : bool;
  statusCode : Z;
  response : string
}.

(** [sendWebhookMessage(webhookUrl, message)].  [url.parse] throws a
    [TypeError] when the URL is [undefined]; an exception inside the
    promise executor rejects the promise with that error. *)
Definition sendWebhookMessage (webhookUrl : option string) (message : SlackPayload)
  : M webhook_response :=
  emit (SendWebhookMessage webhookUrl message) ;;
  match webhookUrl with
  | None =>
      throw (JsError ("The " ++ quoted "url"
                        ++ " argument must be of type string. Received undefined"))
  | Some u =>
      outcome <- await (fun w t => https_request w t u message) ;;
      match outcome with
      | HttpsResponse code responseData =>
          if (200 <=? code)%Z && (code <? 300)%Z then
            ret {| success := true; statusCode := code; response := responseData |}
          else throw (RejectedStatus code responseData)
      | HttpsError msg => throw (RejectedRequest msg)
      | HttpsThrows msg => throw (JsError msg)
      end
  end.

End SlackClient.

(* ================================================================= *)
(** ** [app.js]: the webhook route *)

Module App.

(** [slackApp.client.chat.postMessage(payload)] *)
Definition postMessage (payload : SlackPayload) : M unit :=
  emit (ChatPostMessage payload) ;;
  outcome <- await (fun w t => chat_postMessage w t payload) ;;
  match outcome with
  | None => ret tt
  | Some e => throw e
  end.

Definition payload_of (w : world) (message : RenderedMessage) : SlackPayload :=
  {| channel := SLACK_CHANNEL (env w);
     text := fallbackText message;
     payload_blocks := blocks message;
     payload_attachments := attachments message |}.

(** [e.message !== 'webhook fallback already used'] *)
Definition not_fallback_already_used (e : thrown) : bool :=
  match message_of e with
  | Some m => negb (String.eqb m "webhook fallback already used")
  | None => true
  end.

(** The delivery block of the route handler: the inner [try]/[catch]. *)
Definition deliver (message : RenderedMessage) : M unit :=
  payload <- ask (fun w => payload_of w message) ;;
  webhookUrl <- ask (fun w => SLACK_WEBHOOK_URL (env w)) ;;
  try_catch
    (connected <- read_socketModeConnected ;;
     if connected then
       postMessage payload ;;
       console log "Message posted to Slack via Socket Mode for event: ${eventType}"
     else
       console log "Socket Mode disconnected, using webhook fallback..." ;;
       _ <- SlackClient.sendWebhookMessage webhookUrl payload ;;
       console log "Message posted to Slack via webhook for event: ${eventType}")
    (fun slackError =>
       console error "Error posting to Slack:" ;;
       if not_fallback_already_used slackError then
         try_catch
           (console log "Trying webhook as backup..." ;;
            _ <- SlackClient.sendWebhookMessage webhookUrl payload ;;
            console log "Backup webhook delivery succeeded for event: ${eventType}")
           (fun webhookError =>
              console error "Both Slack delivery methods failed:")
       else ret tt).

(** [`${v}`] inside a message that is only logged: the text is not kept,
    but the conversion can throw. *)
Definition interpolate (v : option json) : M unit :=
  if cannot_convert v
  then throw (JsError "Cannot convert object to primitive value")
  else ret tt.

(** The handler registered with [expressApp.post] after the middleware.
    The first log line converts [eventType] to text before the response is
    written.  (The log lines of the delivery block convert the same value
    again, which then cannot throw.) *)
Definition webhookHandler (req : request) : M unit :=
  try_catch
    (let eventType := property "eventType" (body req) in
     let eventDateTime := property "eventDateTime" (body req) in
     let eventData := property "eventData" (body req) in
     interpolate eventType ;;
     console log "Received MCP webhook: ${eventType}" ;;
     respond 200 "Webhook received" ;;
     rendered <- ask (fun w => formatSlackMessage w eventType eventDateTime eventData) ;;
     match rendered with
     | inl e => throw e
     | inr message => deliver message
     end)
    (fun _ => console error "Error processing webhook:").

(** [expressApp.post(path, mcpVerifyMiddleware, async (req, res) => ...)] *)
Definition postWebhook (req : request) : M unit :=
  Verifier.mcpVerifyMiddleware req (webhookHandler req).

End App.

(** Outbound delivery calls in a trace. *)
Definition is_postMessage (e : event) : bool :=
  match e with ChatPostMessage _ => true | _ => false end.

Definition is_webhook (e : event) : bool :=
  match e with SendWebhookMessage _ _ => true | _ => false end.

Definition is_delivery (e : event) : bool := is_postMessage e || is_webhook e.

Definition is_response (e : event) : bool :=
  match e with Respond _ _ => true | _ => false end.

Definition count (p : event -> bool) (tr : list event) : nat := List.length (filter p tr).

(** The completion of the promise [sendWebhookMessage] returns, from the
    outcome of its HTTPS request. *)
Definition settle (o : https_outcome) : completion SlackClient.webhook_response :=
  match o with
  | HttpsResponse code responseData =>
      if (200 <=? code)%Z && (code <? 300)%Z then
        Returned {| SlackClient.success := true; SlackClient.statusCode := code;
                    SlackClient.response := responseData |}
      else Threw (RejectedStatus code responseData)
  | HttpsError msg => Threw (RejectedRequest msg)
  | HttpsThrows msg => Threw (JsError msg)
  end.

Definition is_console (e : event) : bool :=
  match e with Console _ _ => true | _ => false end.

(** A stretch of a trace that is console output only. *)
Definition quiet (tr : list event) : Prop := forallb is_console tr = true.

(** The notifications after which the session counts as connected. *)
Definition marks_connected (n : lifecycle) : bool :=
  match n with
  | authenticated | start_resolved => true
  | connecting | disconnecting | reconnecting | bolt_error => false
  end.

(* ================================================================= *)
(** ** [utils/formatters.js] *)

Module Formatters.

(** Property access can throw; the renderer is a plain function, so its
    errors are carried in a sum. *)
Definition and_then {A B : Type} (m : thrown + A) (k : A -> thrown + B) : thrown + B :=
  match m with
  | inl e => inl e
  | inr a => k a
  end.

Declare Scope render_scope.
Notation "x <- m ;; k" := (and_then m (fun x => k))
  (at level 61, m at next level, right associativity) : render_scope.
Local Open Scope render_scope.

(** [v.name]: a [TypeError] on [undefined] and [null]; [undefined] when the
    value has no such property.  (No name read here is a built-in property
    of strings, numbers or arrays.) *)
Definition member (name : string) (v : option json) : thrown + option json :=
  match v with
  | None =>
      inl (JsError ("Cannot read properties of undefined (reading '" ++ name ++ "')"))
  | Some JNull =>
      inl (JsError ("Cannot read properties of null (reading '" ++ name ++ "')"))
  | Some j => inr (property name j)
  end.

(** [v?.name] *)
Definition optional_member (name : string) (v : option json) : option json :=
  match v with
  | None | Some JNull => None
  | Some j => property name j
  end.

(** [undefined] or [null]. *)
Definition nullish (v : option json) : bool :=
  match v with
  | None | Some JNull => true
  | _ => false
  end.

(** Truthiness of a parsed JSON value or [undefined]. *)
Definition is_truthy (v : option json) : bool :=
  match v with
  | None | Some JNull => false
  | Some (JBool b) => b
  | Some (JNumber z) => negb (Z.eqb z 0)
  | Some (JString s) => negb (String.eqb s "")
  | Some (JArray _) | Some (JObject _) => true
  end.

(** [v || 'literal'] *)
Definition or_else (v : option json) (literal : string) : option json :=
  if is_truthy v then v else Some (JString literal).

(** [v === 'literal'] *)
Definition is_string (v : option json) (literal : string) : bool :=
  match v with
  | Some (JString s) => String.eqb s literal
  | _ => false
  end.

Section Rendering.

(** Two things are left to the host: the text of a number, [String(n)] for
    the number the body writes as the integer [n] ([json] keeps integers
    only), and the text of a date in the host's locale and time zone,
    [new Date(v).toLocaleString()] for a value [v] that [new Date]
    accepts. *)
Variable number_text : Z -> string.
Variable toLocaleString : option json -> string.

Fixpoint join (separator : string) (parts : list string) : string :=
  match parts with
  | [] => ""
  | [part] => part
  | part :: rest => part ++ separator ++ join separator rest
  end.

(** The text [String(v)] returns for a parsed JSON value, when it returns
    (see [throws_on_ToString]): an array is its elements joined by commas,
    with [null] elements empty, and an object without a key [toString] is
    ['[object Object]']. *)
Fixpoint text_of_json (j : json) : string :=
  match j with
  | JNull => "null"
  | JBool true => "true"
  | JBool false => "false"
  | JNumber z => number_text z
  | JString s => s
  | JArray items =>
      join ","
           ((fix elements (xs : list json) : list string :=
               match xs with
               | [] => []
               | JNull :: rest => "" :: elements rest
               | x :: rest => text_of_json x :: elements rest
               end) items)
  | JObject _ => "[object Object]"
  end.

Definition text_of (v : option json) : string :=
  match v with
  | None => "undefined"
  | Some j => text_of_json j
  end.

(** [`${v}`]: the conversion throws a [TypeError] or gives the text. *)
Definition template (v : option json) : thrown + string :=
  if cannot_convert v then inl (JsError "Cannot convert object to primitive value")
  else inr (text_of v).

(** [new Date(v).toLocaleString()]: the constructor converts an object or
    an array to a primitive first, which throws as [String(v)] does; the
    text of an invalid date is the host's too. *)
Definition date_text (v : option json) : thrown + string :=
  if cannot_convert v then inl (JsError "Cannot convert object to primitive value")
  else inr (toLocaleString v).

Definition mrkdwn (text : string) : json :=
  JObject [("type", JString "mrkdwn"); ("text", JString text)].

Definition plain_text (text : string) : json :=
  JObject [("type", JString "plain_text"); ("text", JString text); ("emoji", JBool true)].

Definition header_block (text : string) : json :=
  JObject [("type", JString "header"); ("text", plain_text text)].

Definition divider : json := JObject [("type", JString "divider")].

Definition section_block (fields : list json) : json :=
  JObject [("type", JString "section"); ("fields", JArray fields)].

Definition context_block (elements : list json) : json :=
  JObject [("type", JString "context"); ("elements", JArray elements)].

Definition button_actions (label url : string) : json :=
  JObject [("type", JString "actions");
           ("elements",
            JArray [JObject [("type", JString "button");
                             ("text", plain_text label);
                             ("url", JString url);
                             ("style", JString "primary")]])].

Definition attachment (color : string) : json :=
  JObject [("color", JString color); ("blocks", JArray [])].

(** A field [{type: "mrkdwn", text: `label${v}`}]. *)
Definition field (label : string) (v : option json) : thrown + json :=
  text <- template v ;;
  inr (mrkdwn (label ++ text)).

(** [eventData.carrier.name] *)
Definition carrier_field (name : string) (eventData : option json) : thrown + option json :=
  carrier <- member "carrier" eventData ;;
  member name carrier.

(** [`${eventData.carrier.name}`] *)
Definition carrier_text (name : string) (eventData : option json) : thrown + string :=
  value <- carrier_field name eventData ;;
  template value.

(** [`${eventData.carrier.legalName} (DOT: ${eventData.carrier.dotNumber})`],
    on which every fallback text ends. *)
Definition carrier_summary (eventData : option json) : thrown + string :=
  legalName <- carrier_text "legalName" eventData ;;
  dotNumber <- carrier_text "dotNumber" eventData ;;
  inr (legalName ++ " (DOT: " ++ dotNumber ++ ")").

Definition formatPacketCompletedMessage
           (eventType : option json) (formattedDate : string) (eventData : option json)
           (carrierSection customerSection contextSection : json)
  : thrown + RenderedMessage :=
  let packetCompletedHeader := header_block "🎉 Carrier Packet Completed" in
  packetDetail <- member "packetDetail" eventData ;;
  packetType <-
    field "*Packet Type:* " (or_else (optional_member "packetType" packetDetail) "Standard") ;;
  completionDate <-
    date_text (or_else (optional_member "completionDatetime" packetDetail) formattedDate) ;;
  let packetDetails :=
    section_block [packetType; mrkdwn ("*Completion Date:* " ++ completionDate)] in
  dotNumber <- carrier_text "dotNumber" eventData ;;
  let actions :=
    button_actions "View in MCP" ("https://mycarrierpackets.com/carriers/" ++ dotNumber) in
  summary <- carrier_summary eventData ;;
  inr {| blocks := [packetCompletedHeader; divider; carrierSection; packetDetails;
                    customerSection; contextSection; actions];
         attachments := [attachment "#36C5F0"];
         fallbackText := "🎉 Carrier Packet Completed - " ++ summary |}.

(** The parts that the three incident formatters share.  In the date field
    the source reads [incidentDatetime] again, without [?.], inside the
    branch where it was found truthy; that read cannot throw and gives the
    same value. *)
Definition incident_date_field (detail : option json) : thrown + json :=
  text <-
    (if is_truthy (optional_member "incidentDatetime" detail)
     then date_text (optional_member "incidentDatetime" detail)
     else inr "N/A") ;;
  inr (mrkdwn ("*Incident Date:* " ++ text)).

Definition incident_url (detail : option json) : thrown + string :=
  incidentReportID <- template (or_else (optional_member "incidentReportID" detail) "") ;;
  inr ("https://mycarrierpackets.com/incident-reports/" ++ incidentReportID).

Definition formatIncidentReportCreatedMessage
           (eventType : option json) (formattedDate : string) (eventData : option json)
           (carrierSection customerSection contextSection : json)
  : thrown + RenderedMessage :=
  let incidentReportHeader := header_block "⚠️ New Incident Report Created" in
  detail <- member "incidentReportDetail" eventData ;;
  incidentType <-
    field "*Incident Type:* " (or_else (optional_member "incidentType" detail) "N/A") ;;
  incidentDate <- incident_date_field detail ;;
  status <- field "*Status:* " (or_else (optional_member "status" detail) "New") ;;
  reporter <-
    field "*Reporter:* " (or_else (optional_member "reportedBy" detail) "Anonymous") ;;
  let incidentDetails := section_block [incidentType; incidentDate; status; reporter] in
  url <- incident_url detail ;;
  let actions := button_actions "View Incident" url in
  summary <- carrier_summary eventData ;;
  inr {| blocks := [incidentReportHeader; divider; carrierSection; incidentDetails;
                    customerSection; contextSection; actions];
         attachments := [attachment "#E01E5A"];
         fallbackText := "⚠️ New Incident Report Created - " ++ summary |}.

Definition formatIncidentReportUpdatedMessage
           (eventType : option json) (formattedDate : string) (eventData : option json)
           (carrierSection customerSection contextSection : json)
  : thrown + RenderedMessage :=
  let incidentReportHeader := header_block "🔄 Incident Report Updated" in
  detail <- member "incidentReportDetail" eventData ;;
  incidentType <-
    field "*Incident Type:* " (or_else (optional_member "incidentType" detail) "N/A") ;;
  incidentDate <- incident_date_field detail ;;
  status <- field "*Status:* " (or_else (optional_member "status" detail) "Updated") ;;
  reporter <-
    field "*Reporter:* " (or_else (optional_member "reportedBy" detail) "Anonymous") ;;
  let incidentDetails := section_block [incidentType; incidentDate; status; reporter] in
  url <- incident_url detail ;;
  let actions := button_actions "View Incident" url in
  summary <- carrier_summary eventData ;;
  inr {| blocks := [incidentReportHeader; divider; carrierSection; incidentDetails;
                    customerSection; contextSection; actions];
         attachments := [attachment "#ECB22E"];
         fallbackText := "🔄 Incident Report Updated - " ++ summary |}.

Definition formatIncidentReportRetractedMessage
           (eventType : option json) (formattedDate : string) (eventData : option json)
           (carrierSection customerSection contextSection : json)
  : thrown + RenderedMessage :=
  let incidentReportHeader := header_block "❌ Incident Report Retracted" in
  detail <- member "incidentReportDetail" eventData ;;
  incidentType <-
    field "*Incident Type:* " (or_else (optional_member "incidentType" detail) "N/A") ;;
  incidentDate <- incident_date_field detail ;;
  reason <-
    field "*Retraction Reason:* "
          (or_else (optional_member "retractionReason" detail) "Not specified") ;;
  retractedBy <-
    field "*Retracted By:* " (or_else (optional_member "retractedBy" detail) "System") ;;
  let incidentDetails := section_block [incidentType; incidentDate; reason; retractedBy] in
  url <- incident_url detail ;;
  let actions := button_actions "View Details" url in
  summary <- carrier_summary eventData ;;
  inr {| blocks := [incidentReportHeader; divider; carrierSection; incidentDetails;
                    customerSection; contextSection; actions];
         attachments := [attachment "#7B7B7B"];
         fallbackText := "❌ Incident Report Retracted - " ++ summary |}.

Definition formatVinVerificationCompletedMessage
           (eventType : option json) (formattedDate : string) (eventData : option json)
           (carrierSection customerSection contextSection : json)
  : thrown + RenderedMessage :=
  let vinVerificationHeader := header_block "🚚 VIN Verification Completed" in
  detail <- member "vinVerificationDetail" eventData ;;
  let status := optional_member "vinVerificationStatus" detail in
  vin <- field "*VIN:* " (or_else (optional_member "vin" detail) "N/A") ;;
  statusField <- field "*Status:* " (or_else status "Completed") ;;
  pushed <-
    (if is_string status "VINBelongsToAnotherCarrier" then
       otherDOT <-
         field "*Other DOT:* " (or_else (optional_member "otherDOTNumber" detail) "N/A") ;;
       inr [otherDOT]
     else inr []) ;;
  let vinDetails := section_block ([vin; statusField] ++ pushed)%list in
  locationSection <-
    (if is_truthy (optional_member "imageUploadedGeolocation" detail) then
       geo <- member "imageUploadedGeolocation" detail ;;
       latitude <- member "latitude" geo ;;
       latitudeText <- template latitude ;;
       longitude <- member "longitude" geo ;;
       longitudeText <- template longitude ;;
       method <- member "method" geo ;;
       methodField <- field "*Location Method:* " (or_else method "N/A") ;;
       inr (Some (section_block
                    [mrkdwn ("*Image Location:* " ++ latitudeText ++ ", " ++ longitudeText);
                     methodField]))
     else inr None) ;;
  dotNumber <- carrier_text "dotNumber" eventData ;;
  let actions :=
    button_actions "View in MCP"
                   ("https://mycarrierpackets.com/carriers/" ++ dotNumber ++ "/vehicles") in
  let blocks :=
    ([vinVerificationHeader; divider; carrierSection; vinDetails]
       ++ (match locationSection with
           | Some location => [location]
           | None => []
           end)
       ++ [customerSection; contextSection; actions])%list in
  summary <- carrier_summary eventData ;;
  inr {| blocks := blocks;
         attachments := [attachment "#2EB67D"];
         fallbackText := "🚚 VIN Verification Completed - " ++ summary |}.

Definition formatUserVerificationCompletedMessage
           (eventType : option json) (formattedDate : string) (eventData : option json)
           (carrierSection customerSection contextSection : json)
  : thrown + RenderedMessage :=
  let userVerificationHeader := header_block "👤 User Verification Completed" in
  detail <- member "userVerificationDetail" eventData ;;
  firstName <- template (or_else (optional_member "firstName" detail) "") ;;
  lastName <- template (or_else (optional_member "lastName" detail) "") ;;
  role <- template (or_else (optional_member "role" detail) "N/A") ;;
  otherRole <-
    (if is_truthy (optional_member "otherRole" detail) then
       value <- member "otherRole" detail ;;
       text <- template value ;;
       inr ("(" ++ text ++ ")")
     else inr "") ;;
  status <-
    field "*Status:* " (or_else (optional_member "verificationStatus" detail) "Completed") ;;
  phone <- field "*Phone:* " (or_else (optional_member "phoneNumber" detail) "N/A") ;;
  let userDetails :=
    section_block
      [mrkdwn ("*Name:* " ++ firstName ++ " " ++ lastName);
       mrkdwn ("*Role:* " ++ role ++ " " ++ otherRole);
       status;
       phone] in
  verificationTimestamp <-
    (if is_truthy (optional_member "verificationDatetime" detail) then
       value <- member "verificationDatetime" detail ;;
       date_text value
     else inr formattedDate) ;;
  let verificationTimestampSection :=
    context_block [mrkdwn ("Verification completed at *" ++ verificationTimestamp ++ "*")] in
  dotNumber <- carrier_text "dotNumber" eventData ;;
  let actions :=
    button_actions "View in MCP"
                   ("https://mycarrierpackets.com/carriers/" ++ dotNumber ++ "/users") in
  let status := optional_member "verificationStatus" detail in
  let color :=
    if is_string status "Denied" then "#E01E5A"
    else if is_string status "FollowUp" || is_string status "Pending" then "#ECB22E"
    else "#2EB67D" in
  summary <- carrier_summary eventData ;;
  inr {| blocks := [userVerificationHeader; divider; carrierSection; userDetails;
                    customerSection; verificationTimestampSection; contextSection; actions];
         attachments := [attachment color];
         fallbackText := "👤 User Verification Completed - " ++ summary |}.

Definition formatDefaultMessage
           (eventType : option json) (formattedDate : string) (eventData : option json)
           (carrierSection customerSection contextSection : json)
  : thrown + RenderedMessage :=
  eventTypeText <- template eventType ;;
  let genericHeader := header_block ("📢 MCP Event: " ++ eventTypeText) in
  dotNumber <- carrier_text "dotNumber" eventData ;;
  let actions :=
    button_actions "View in MCP" ("https://mycarrierpackets.com/carriers/" ++ dotNumber) in
  summary <- carrier_summary eventData ;;
  inr {| blocks := [genericHeader; divider; carrierSection; customerSection;
                    contextSection; actions];
         attachments := [attachment "#9B59B6"];
         fallbackText := "📢 MCP Event: " ++ eventTypeText ++ " - " ++ summary |}.

(** [formatSlackMessage(eventType, eventDateTime, eventData)].  Each
    placeholder of a template literal is read and converted to text before
    the next one is read. *)
Definition formatSlackMessage (eventType eventDateTime eventData : option json)
  : thrown + RenderedMessage :=
  formattedDate <- date_text eventDateTime ;;
  legalName <- carrier_text "legalName" eventData ;;
  dbaName <- carrier_field "dbaName" eventData ;;
  dba <-
    (if is_truthy dbaName then
       text <- carrier_text "dbaName" eventData ;;
       inr ("(" ++ text ++ ")")
     else inr "") ;;
  dotNumber <- carrier_field "dotNumber" eventData ;;
  dotNumberField <- field "*DOT Number:* " dotNumber ;;
  docketNumber <- carrier_field "docketNumber" eventData ;;
  docketNumberField <- field "*MC Number:* " (or_else docketNumber "N/A") ;;
  let carrierSection :=
    section_block
      [mrkdwn ("*Carrier:* " ++ legalName ++ " " ++ dba); dotNumberField; docketNumberField] in
  customer <- member "customer" eventData ;;
  companyName <- member "companyName" customer ;;
  companyNameField <- field "*Customer:* " companyName ;;
  customerID <- member "customerID" customer ;;
  customerIDField <- field "*Customer ID:* " customerID ;;
  let customerSection := section_block [companyNameField; customerIDField] in
  let contextSection :=
    context_block [mrkdwn ("Event occurred at *" ++ formattedDate ++ "*")] in
  let formatter :=
    if is_string eventType "carrier.packet.completed" then formatPacketCompletedMessage
    else if is_string eventType "carrier.incident_report.created"
    then formatIncidentReportCreatedMessage
    else if is_string eventType "carrier.incident_report.updated"
    then formatIncidentReportUpdatedMessage
    else if is_string eventType "carrier.incident_report.retracted"
    then formatIncidentReportRetractedMessage
    else if is_string eventType "carrier.vin_verification.completed"
    then formatVinVerificationCompletedMessage
    else if is_string eventType "carrier.user_verification.completed"
    then formatUserVerificationCompletedMessage
    else formatDefaultMessage in
  formatter eventType formattedDate eventData carrierSection customerSection contextSection.

End Rendering.

End Formatters.

(** [SUPPORTED_EVENTS] of [app.js]. *)
Definition SUPPORTED_EVENTS : list string :=
  ["carrier.packet.completed";
   "carrier.incident_report.created";
   "carrier.incident_report.updated";
   "carrier.incident_report.retracted";
   "carrier.vin_verification.completed";
   "carrier.user_verification.completed"].

(** The event type is one of [SUPPORTED_EVENTS]. *)
Definition supported (eventType : option json) : bool :=
  existsb (Formatters.is_string eventType) SUPPORTED_EVENTS.

(* ----------------------------------------------------------------- *)
(** *** Strings and traces: further vocabulary *)

(** [s.toUpperCase()], on ASCII letters. *)
Definition upper_ascii (c : ascii) : ascii :=
  let n := N_of_ascii c in
  if (97 <=? n)%N && (n <=? 122)%N then ascii_of_N (n - 32) else c.

Fixpoint uppercase (s : string) : string :=
  match s with
  | EmptyString => EmptyString
  | String c rest => String (upper_ascii c) (uppercase rest)
  end.

(** One of [0-9a-f]. *)
Definition is_lower_hex (c : ascii) : bool :=
  let n := N_of_ascii c in
  ((48 <=? n)%N && (n <=? 57)%N) || ((97 <=? n)%N && (n <=? 102)%N).

Fixpoint all_chars (p : ascii -> bool) (s : string) : bool :=
  match s with
  | EmptyString => true
  | String c rest => p c && all_chars p rest
  end.

(** The payload an outbound call carries. *)
Definition payload_sent (e : event) : option SlackPayload :=
  match e with
  | ChatPostMessage p => Some p
  | SendWebhookMessage _ p => Some p
  | _ => None
  end.

(** No lifecycle notification arrives while a handler waits. *)
Definition undisturbed (w : world) : Prop :=
  forall t, notifications_during w t = [].

(* ================================================================= *)
(** ** [app.js]: the health endpoints *)

Module Health.

(** The custom route handed to Bolt:
    [res.writeHead(200); res.end(`MCP Alerts running - Socket Mode: ${socketModeConnected}`)] *)
Definition customRoute : M unit :=
  connected <- read_socketModeConnected ;;
  respond 200 ("MCP Alerts running - Socket Mode: " ++ (if connected then "true" else "false")).

(** [expressApp.get('/health', ...)]: [res.status(200).json({status, socketMode, timestamp})];
    the body is the JSON text of that object.  [timestamp] is the value of
    [new Date().toISOString()] at the time of the request. *)
Definition health (timestamp : string) : M unit :=
  connected <- read_socketModeConnected ;;
  respond 200
    ("{" ++ quoted "status" ++ ":" ++ quoted "ok" ++ ","
         ++ quoted "socketMode" ++ ":"
         ++ quoted (if connected then "connected" else "disconnected") ++ ","
         ++ quoted "timestamp" ++ ":" ++ quoted timestamp ++ "}").

End Health.

(** The state in which a wait ends: the flag is what the notifications that
    arrived meanwhile left it at, and one more wait is counted. *)
Definition after_wait (w : world) (s : state) : state :=
  {| socketModeConnected :=
       last (map marks_connected (notifications_during w (waits s))) (socketModeConnected s);
     waits := S (waits s) |}.

(* ----------------------------------------------------------------- *)
(** *** Sample inputs *)

Definition sample_message : RenderedMessage :=
  {| fallbackText := "MCP Event: carrier.packet.completed";
     blocks := [];
     attachments := [] |}.

Definition sample_env : process_env :=
  {| MCP_WEBHOOK_SIGNING_SECRET := Some "s3cret";
     SLACK_CHANNEL := Some "C0123456789";
     SLACK_WEBHOOK_URL := Some "https://hooks.slack.com/services/T000/B000/XXXX" |}.

(** Slack is reachable on both channels. *)
Definition sample_world : world :=
  {| env := sample_env;
     formatSlackMessage := fun _ _ _ => inr sample_message;
     chat_postMessage := fun _ _ => None;
     https_request := fun _ _ _ => HttpsResponse 200 "ok";
     notifications_during := fun _ => [] |}.

(** The persistent session rejects with [err] and the webhook endpoint
    answers every request with [status]. *)
Definition failing_world (err : thrown) (status : Z) : world :=
  {| env := sample_env;
     formatSlackMessage := formatSlackMessage sample_world;
     chat_postMessage := fun _ _ => Some err;
     https_request := fun _ _ _ => HttpsResponse status "internal_error";
     notifications_during := fun _ => [] |}.

Definition connected_state : state := {| socketModeConnected := true; waits := 0 |}.

(** A signed event: body [{}] with its signature under [sample_env]'s secret. *)
Definition signed_request : request :=
  {| headers := [("content-type", "application/json");
                 ("mcp-signature",
                  "sha256=adbde1ce40c89c14215687d5d762a47df6dfaefcfad61e2e86718ffc8498571b")];
     ip := "203.0.113.7";
     rawBody := Some "{}";
     body := JObject [] |}.

(** The same environment without a signing secret. *)
Definition unconfigured_world : world :=
  {| env := {| MCP_WEBHOOK_SIGNING_SECRET := None;
               SLACK_CHANNEL := SLACK_CHANNEL sample_env;
               SLACK_WEBHOOK_URL := SLACK_WEBHOOK_URL sample_env |};
     formatSlackMessage := formatSlackMessage sample_world;
     chat_postMessage := chat_postMessage sample_world;
     https_request := https_request sample_world;
     notifications_during := notifications_during sample_world |}.


Definition bodiless_request : request :=
  {| headers := [("content-type", "application/json");
                 ("content-length", "0");
                 ("mcp-signature", "sha256=00")];
     ip := ip signed_request;
     rawBody := None;
     body := JObject [] |}.

Definition forged_request : request :=
  {| headers := [("content-type", "application/json");
                 ("mcp-signature",
                  "sha256=0000000000000000000000000000000000000000000000000000000000000000")];
     ip := ip signed_request;
     rawBody := rawBody signed_request;
     body := body signed_request |}.

(** [w], with the session dropping and coming back during every wait. *)
Definition restless (w : world) : world :=
  {| env := env w;
     formatSlackMessage := formatSlackMessage w;
     chat_postMessage := chat_postMessage w;
     https_request := https_request w;
     notifications_during := fun _ => [disconnecting; reconnecting] |}.

(** A renderer that throws, as [formatSlackMessage] does for an event
    without carrier. *)
Definition unrenderable_world : world :=
  {| env := sample_env;
     formatSlackMessage :=
       fun _ _ _ => inl (JsError "Cannot read properties of undefined (reading 'legalName')");
     chat_postMessage := chat_postMessage sample_world;
     https_request := https_request sample_world;
     notifications_during := notifications_during sample_world |}.

(** No webhook URL in the environment. *)
Definition without_webhook_url : world :=
  {| env := {| MCP_WEBHOOK_SIGNING_SECRET := MCP_WEBHOOK_SIGNING_SECRET sample_env;
               SLACK_CHANNEL := SLACK_CHANNEL sample_env;
               SLACK_WEBHOOK_URL := None |};
     formatSlackMessage := formatSlackMessage sample_world;
     chat_postMessage := chat_postMessage sample_world;
     https_request := https_request sample_world;
     notifications_during := notifications_during sample_world |}.

(** A host for the renderer.  [String(n)] is the text ECMAScript gives the
    number that the integer literal [n] denotes: the digits of [n] while
    [|n| < 2^53]; beyond, [n] is first rounded to the nearest double (ties
    to the even mantissa), and the text is the shortest decimal that still
    rounds to that double, written in full up to 21 digits and with an
    exponent from there on. *)
Definition decimal (z : Z) : string := NilZero.string_of_int (Z.to_int z).

Definition nearest_double (z : Z) : Z :=
  if (z <? 9007199254740992)%Z then z
  else
    let e := (Z.log2 z - 52)%Z in
    let q := Z.shiftr z e in
    let r := (z - Z.shiftl q e)%Z in
    let half := Z.shiftl 1 (e - 1) in
    let m := if (half <? r)%Z || ((r =? half)%Z && Z.odd q) then (q + 1)%Z else q in
    Z.shiftl m e.

(** The decimal with the fewest significant digits, [k] or more, that
    rounds to the double [x] of [n] digits; of two with [k] digits, the
    nearer one. *)
Fixpoint shortest_decimal (x n k : Z) (fuel : nat) : Z :=
  match fuel with
  | O => x
  | S fuel' =>
      let p := (10 ^ (n - k))%Z in
      let below := (x / p * p)%Z in
      let above := (below + p)%Z in
      let below_fits := (nearest_double below =? x)%Z in
      let above_fits := (nearest_double above =? x)%Z in
      if below_fits && above_fits then
        if (x - below <? above - x)%Z then below
        else if (above - x <? x - below)%Z then above
        else if Z.even (below / p) then below else above
      else if below_fits then below
      else if above_fits then above
      else shortest_decimal x n (k + 1) fuel'
  end.

Fixpoint without_trailing_zeros (digits : string) : string :=
  match digits with
  | EmptyString => EmptyString
  | String c rest =>
      match without_trailing_zeros rest with
      | EmptyString => if Ascii.eqb c "0" then EmptyString else String c EmptyString
      | kept => String c kept
      end
  end.

Definition number_form (c : Z) : string :=
  let digits := decimal c in
  let n := String.length digits in
  if (n <=? 21)%nat then digits
  else
    match without_trailing_zeros digits with
    | EmptyString => digits
    | String d EmptyString => String d ("e+" ++ decimal (Z.of_nat n - 1))
    | String d rest => String d ("." ++ rest ++ "e+" ++ decimal (Z.of_nat n - 1))
    end.

Definition sample_number_text (z : Z) : string :=
  if (z =? 0)%Z then "0"
  else
    let sign := if (z <? 0)%Z then "-" else "" in
    let x := nearest_double (Z.abs z) in
    if (Z.log2 x >=? 1024)%Z then sign ++ "Infinity"
    else
      sign ++ number_form
                (shortest_decimal x (Z.of_nat (String.length (decimal x))) 1 17).

(** Dates as a host in the en-US locale and UTC prints them, for the
    values the samples hold: one timestamp and its own text are dates; an
    event without [eventDateTime] has the date ['Invalid Date'], and so has
    that text when it is read as a date again. *)
Definition sample_toLocaleString (v : option json) : string :=
  match v with
  | Some (JString "2026-01-02T15:04:05Z") => "1/2/2026, 3:04:05 PM"
  | Some (JString "1/2/2026, 3:04:05 PM") => "1/2/2026, 3:04:05 PM"
  | _ => "Invalid Date"
  end.

(** [sample_world] with the renderer of [utils/formatters.js]. *)
Definition rendering_world : world :=
  {| env := sample_env;
     formatSlackMessage :=
       Formatters.formatSlackMessage sample_number_text sample_toLocaleString;
     chat_postMessage := chat_postMessage sample_world;
     https_request := https_request sample_world;
     notifications_during := notifications_during sample_world |}.

(** The event data of the test script's samples: carrier and customer. *)
Definition sample_carrier : json :=
  JObject [("dotNumber", JNumber 9999997);
           ("docketNumber", JString "MC9999997");
           ("legalName", JString "MCP TEST CARRIER 9999997");
           ("dbaName", JNull)].

Definition sample_customer : json :=
  JObject [("customerID", JNumber 6); ("companyName", JString "MCP Test Customer")].

Definition sample_eventData (detail : list (string * json)) : option json :=
  Some (JObject (detail ++ [("carrier", sample_carrier); ("customer", sample_customer)])%list).

(** A request as the handler sees it, with an event that has no carrier. *)
Definition carrierless_request : request :=
  {| headers := headers signed_request;
     ip := ip signed_request;
     rawBody := rawBody signed_request;
     body := JObject [("eventType", JString "carrier.packet.completed");
                      ("eventData", JObject [("customer", sample_customer)])] |}.

(** A signed event whose [eventType] is an object with a key [toString]:
    the body [{"eventType":{"toString":1}}] with its signature under
    [sample_env]'s secret. *)
Definition unprintable_request : request :=
  {| headers := [("content-type", "application/json");
                 ("mcp-signature",
                  "sha256=3089d526aa94ea39d09fd6a48f8a77a0e693c5dfd6b2bbac0e6b47b44bb5624b")];
     ip := ip signed_request;
     rawBody := Some ("{" ++ quoted "eventType" ++ ":{" ++ quoted "toString" ++ ":1}}");
     body := JObject [("eventType", JObject [("toString", JNumber 1)])] |}.

(* ================================================================= *)
(** * Properties *)

(** ** Test vectors for the [crypto] model *)

Example sha256_abc :
  Hex.encode (Crypto.sha256 (utf8 "abc"))
  = "ba7816bf8f01cfea414140de5dae2223b00361a396177a9cb410ff61f20015ad".
Proof. vm_compute. reflexivity. Qed.

Example sha256_two_blocks :
  Hex.encode (Crypto.sha256 (utf8 "aaaaaaaaaaaaaaaaaaaaaaaaaaaaaaaaaaaaaaaaaaaaaaaaaaaaaaaaaaaaaaaaaaaaaa"))
  = "6bd5e5034855a11241f0dee8fc72850ffd9955b28347a86428b5fa19119f6ad0".
Proof. vm_compute. reflexivity. Qed.

Example hmac_sha256_fox :
  Hex.encode (Crypto.hmac_sha256 (utf8 "key") (utf8 "The quick brown fox jumps over the lazy dog"))
  = "f7bc83f430538424b13298e6aa6fb143ef4d59a14946175997479dbc2d1a3cd8".
Proof. vm_compute. reflexivity. Qed.

Example hmac_sha256_long_key :
  Hex.encode (Crypto.hmac_sha256
                (utf8 "kkkkkkkkkkkkkkkkkkkkkkkkkkkkkkkkkkkkkkkkkkkkkkkkkkkkkkkkkkkkkkkkkkkkkkkkkkkkkkkk")
                (utf8 "{}"))
  = "ea8e81823397800919641bd08435a85403160dfd8aeb9d2c9e0e9604ea5dfbf0".
Proof. vm_compute. reflexivity. Qed.

(** ** Hex and buffers *)

Lemma decode_encode_byte (b : byte) (rest : string) :
  Hex.decode (Hex.encode_byte b ++ rest) = b :: Hex.decode rest.
Proof. destruct b; reflexivity. Qed.

Lemma decode_encode (bs : list byte) : Hex.decode (Hex.encode bs) = bs.
Proof.
  induction bs as [|b bs IH]; [reflexivity|].
  cbn [Hex.encode]. rewrite decode_encode_byte. now rewrite IH.
Qed.

Lemma buffer_eqb_refl (a : list byte) : buffer_eqb a a = true.
Proof.
  induction a as [|x a IH]; [reflexivity|].
  cbn [buffer_eqb]. rewrite IH, andb_true_r. destruct x; reflexivity.
Qed.

Lemma buffer_eqb_eq (a b : list byte) : buffer_eqb a b = true <-> a = b.
Proof.
  split; [|intros ->; apply buffer_eqb_refl].
  revert b; induction a as [|x a IH]; intros [|y b]; cbn; try discriminate; auto.
  intros H. apply andb_true_iff in H as [Hxy Hab].
  apply Byte.byte_dec_bl in Hxy. subst. f_equal. now apply IH.
Qed.

Lemma without_tag_tagged (x : string) : without_tag ("sha256=" ++ x) = x.
Proof. reflexivity. Qed.

Lemma eqb_empty_false (s : string) : s <> "" -> String.eqb s "" = false.
Proof. intros H. now apply String.eqb_neq. Qed.

(** ** The signature verifier *)

Lemma Returned_inj {A : Type} (a b : A) : Returned a = Returned b -> a = b.
Proof. intros H. now inversion H. Qed.

Lemma tagged_not_empty (x : string) : String.eqb ("sha256=" ++ x) "" = false.
Proof. reflexivity. Qed.

Lemma generateSignature_run (payload secret : string) (w : world) (s : state) :
  secret <> "" ->
  Verifier.generateSignature payload secret w s
  = (Returned ("sha256=" ++ Hex.encode (Crypto.hmac_sha256 (utf8 secret) (utf8 payload))),
     s, []).
Proof.
  intros Hs. unfold Verifier.generateSignature.
  now rewrite (eqb_empty_false _ Hs).
Qed.

(** What a call with three non-empty arguments does: one log line and
    [false] when the decoded lengths differ, one [timingSafeEqual] call and
    its verdict otherwise.  The state is left alone and nothing is thrown. *)
Lemma verifySignature_run (payload signature secret : string) (w : world) (s : state) :
  payload <> "" -> signature <> "" -> secret <> "" ->
  Verifier.verifySignature payload signature secret w s
  = let expected := Crypto.hmac_sha256 (utf8 secret) (utf8 payload) in
    let received := Hex.decode (without_tag signature) in
    if Nat.eqb (List.length expected) (List.length received)
    then (Returned (buffer_eqb expected received), s, [TimingSafeEqual expected received])
    else (Returned false, s, [Console error "Signature length mismatch: received ${receivedBuffer.length}, calculated ${expectedBuffer.length}"]).
Proof.
  intros Hp Hg Hs. unfold Verifier.verifySignature.
  rewrite (eqb_empty_false _ Hp), (eqb_empty_false _ Hg), (eqb_empty_false _ Hs).
  cbn [orb]. unfold bind at 1. rewrite (generateSignature_run _ _ _ _ Hs).
  rewrite without_tag_tagged, decode_encode. cbv zeta.
  destruct (Nat.eqb _ _) eqn:Hlen; cbn [negb].
  - unfold timingSafeEqual, bind, emit. rewrite Hlen. reflexivity.
  - reflexivity.
Qed.

Lemma verifySignature_empty (payload signature secret : string) (w : world) (s : state) :
  payload = "" \/ signature = "" \/ secret = "" ->
  Verifier.verifySignature payload signature secret w s = (Returned false, s, []).
Proof.
  intros H. unfold Verifier.verifySignature.
  replace (String.eqb payload "" || String.eqb signature "" || String.eqb secret "")
    with true; [reflexivity|].
  symmetry. destruct H as [-> | [-> | ->]]; cbn;
    rewrite ?orb_true_r; reflexivity.
Qed.

(** [verifySignature] returns a boolean on every input: it never throws and
    never touches the process state. *)
Lemma verifySignature_returns (payload signature secret : string) (w : world) (s : state) :
  exists (verdict : bool) (tr : list event),
    Verifier.verifySignature payload signature secret w s = (Returned verdict, s, tr)
    /\ filter is_delivery tr = [] /\ filter is_response tr = [].
Proof.
  destruct (string_dec payload "") as [Hp|Hp];
    [eexists _, _; rewrite verifySignature_empty by auto; repeat split|].
  destruct (string_dec signature "") as [Hg|Hg];
    [eexists _, _; rewrite verifySignature_empty by auto; repeat split|].
  destruct (string_dec secret "") as [Hs|Hs];
    [eexists _, _; rewrite verifySignature_empty by auto; repeat split|].
  rewrite verifySignature_run by assumption. cbv zeta.
  destruct (Nat.eqb _ _); eexists _, _; repeat split.
Qed.

(** C6.  Round trip: for every non-empty body and non-empty secret, the
    signature that [generateSignature] computes for the body is accepted by
    [verifySignature] for the same body and secret. *)
Theorem verify_generated_signature (w : world) (s : state) (payload secret : string) :
  payload <> "" -> secret <> "" ->
  value_of ((signature <- Verifier.generateSignature payload secret ;;
             Verifier.verifySignature payload signature secret) w s)
  = Returned true.
Proof.
  intros Hp Hs. unfold bind. rewrite (generateSignature_run _ _ _ _ Hs).
  rewrite verifySignature_run; [|assumption|intros H; discriminate H|assumption].
  rewrite without_tag_tagged, decode_encode. cbv zeta.
  rewrite Nat.eqb_refl, buffer_eqb_refl. reflexivity.
Qed.

Lemma verify_generated_signature_witness :
  value_of ((signature <- Verifier.generateSignature "{}" "s3cret" ;;
             Verifier.verifySignature "{}" signature "s3cret") sample_world initial_state)
  = Returned true.
Proof.
  apply (verify_generated_signature sample_world initial_state "{}" "s3cret");
    discriminate.
Defined.

(** C7.  For non-empty body, received signature and secret: when the
    hex-decoded received signature and the hex-decoded expected signature
    have different byte lengths, [verifySignature] returns [false] without
    throwing, and all it does is log the mismatch: [timingSafeEqual] is not
    called and the state is unchanged.  This is [verifySignature] of
    [utils/verifier.js], the one the middleware calls.  The legacy helper
    of the same name, which nothing imports, decodes nothing and checks no
    length: it hands the header and the expected value to
    [timingSafeEqual] as they are, which throws when their byte lengths
    differ ([legacy_verifySignature_throws_on_length_mismatch] below). *)
Theorem length_mismatch_returns_false
        (w : world) (s : state) (rawBody signature secret expectedSignature : string) :
  rawBody <> "" -> signature <> "" -> secret <> "" ->
  value_of (Verifier.generateSignature rawBody secret w s) = Returned expectedSignature ->
  List.length (Hex.decode (without_tag signature))
    <> List.length (Hex.decode (without_tag expectedSignature)) ->
  Verifier.verifySignature rawBody signature secret w s
  = (Returned false, s, [Console error "Signature length mismatch: received ${receivedBuffer.length}, calculated ${expectedBuffer.length}"]).
Proof.
  intros Hp Hg Hs Hexp Hlen.
  rewrite (generateSignature_run _ _ _ _ Hs) in Hexp.
  apply (Returned_inj
           ("sha256=" ++ Hex.encode (Crypto.hmac_sha256 (utf8 secret) (utf8 rawBody))))
    in Hexp.
  rewrite <- Hexp, without_tag_tagged, decode_encode in Hlen.
  rewrite verifySignature_run by assumption. cbv zeta.
  destruct (Nat.eqb _ _) eqn:E; [|reflexivity].
  apply Nat.eqb_eq in E. congruence.
Qed.

Lemma length_mismatch_returns_false_witness :
  Verifier.verifySignature "{}" "sha256=abcd" "s3cret" sample_world initial_state
  = (Returned false, initial_state, [Console error "Signature length mismatch: received ${receivedBuffer.length}, calculated ${expectedBuffer.length}"]).
Proof.
  apply (length_mismatch_returns_false sample_world initial_state "{}" "sha256=abcd" "s3cret"
           "sha256=adbde1ce40c89c14215687d5d762a47df6dfaefcfad61e2e86718ffc8498571b").
  - discriminate.
  - discriminate.
  - discriminate.
  - vm_compute. reflexivity.
  - vm_compute. discriminate.
Defined.

(** The legacy helper on the header 'sha256=abcd': it has 11 bytes, the
    expected value 71, and [timingSafeEqual] throws. *)
Lemma legacy_verifySignature_throws_on_length_mismatch :
  value_of (LegacySignature.verifySignature "{}" "sha256=abcd" "s3cret"
              sample_world initial_state)
  = Threw (JsError "Input buffers must have the same byte length").
Proof. vm_compute. reflexivity. Qed.

(** ** Traces *)

Lemma filter_quiet (p : event -> bool) (tr : list event) :
  (forall l t, p (Console l t) = false) -> quiet tr -> filter p tr = [].
Proof.
  intros Hp. unfold quiet. induction tr as [|e tr IH]; [reflexivity|].
  cbn. intros H. apply andb_true_iff in H as [He Htr].
  destruct e; try discriminate He. now rewrite Hp, IH.
Qed.

Lemma quiet_app (a b : list event) : quiet a -> quiet b -> quiet (a ++ b).
Proof. unfold quiet. intros Ha Hb. now rewrite forallb_app, Ha, Hb. Qed.

Lemma quiet_no_delivery (tr : list event) : quiet tr -> filter is_delivery tr = [].
Proof. now apply filter_quiet. Qed.

Lemma quiet_no_postMessage (tr : list event) : quiet tr -> filter is_postMessage tr = [].
Proof. now apply filter_quiet. Qed.

Lemma quiet_no_webhook (tr : list event) : quiet tr -> filter is_webhook tr = [].
Proof. now apply filter_quiet. Qed.

Lemma quiet_no_response (tr : list event) : quiet tr -> filter is_response tr = [].
Proof. now apply filter_quiet. Qed.

(** ** The connectivity flag *)

Lemma notify_run (n : lifecycle) (w : world) (s : state) :
  exists tr,
    notify n w s
    = (Returned tt, {| socketModeConnected := marks_connected n; waits := waits s |}, tr)
    /\ quiet tr.
Proof. destruct n; eexists; split; reflexivity. Qed.

Lemma last_cons_default {A : Type} (a d : A) (l : list A) : last (a :: l) d = last l a.
Proof.
  revert a d; induction l as [|b l IH]; intros a d; [reflexivity|].
  change (last (a :: b :: l) d) with (last (b :: l) d).
  now rewrite (IH b d), (IH b a).
Qed.

Lemma notify_all_run (ns : list lifecycle) (w : world) (s : state) :
  exists tr,
    notify_all ns w s
    = (Returned tt,
       {| socketModeConnected := last (map marks_connected ns) (socketModeConnected s);
          waits := waits s |}, tr)
    /\ quiet tr.
Proof.
  revert s; induction ns as [|n ns IH]; intros s.
  - exists []. destruct s; split; reflexivity.
  - destruct (notify_run n w s) as (tr1 & E1 & Q1).
    destruct (IH {| socketModeConnected := marks_connected n; waits := waits s |})
      as (tr2 & E2 & Q2).
    exists (tr1 ++ tr2)%list. split; [|now apply quiet_app].
    cbn [notify_all]. unfold bind. rewrite E1, E2.
    cbn [map socketModeConnected waits]. now rewrite last_cons_default.
Qed.

(** None of the handlers [connecting], [disconnecting], [reconnecting] and
    the Bolt error handler can turn the flag on. *)
Lemma last_all_false (bs : list bool) :
  (forall b, In b bs -> b = false) -> last bs false = false.
Proof.
  induction bs as [|b bs IH]; [reflexivity|]. intros H.
  rewrite last_cons_default. destruct bs as [|c bs'].
  - apply H. now left.
  - rewrite <- (IH (fun x Hx => H x (or_intror Hx))).
    now rewrite !last_cons_default.
Qed.

(** C4 as stated fails: once [slackApp.start()] has resolved the startup
    block turns the flag on, although no [authenticated] notification has
    been received. *)
Lemma connected_without_authenticated :
  ~ In authenticated [start_resolved]
  /\ socketModeConnected (state_of (notify_all [start_resolved] sample_world initial_state))
     = true.
Proof.
  split; [|reflexivity].
  intros [H|[]]; discriminate H.
Qed.

(** C4, amended.  The flag starts [false]; each lifecycle handler overwrites
    it with a value that depends on the notification alone: [true] for
    [authenticated] and for the completion of [slackApp.start()], [false] for
    [connecting], [disconnecting], [reconnecting] and the error handler.  So
    after any sequence of notifications the flag is the value of the last
    one, and it stays [false] from process start as long as neither an
    [authenticated] notification nor the completion of start has occurred. *)
Theorem connectivity_flag_follows_last_notification (w : world) (ns : list lifecycle) :
  socketModeConnected initial_state = false
  /\ (forall n s, socketModeConnected (state_of (notify n w s)) = marks_connected n)
  /\ socketModeConnected (state_of (notify_all ns w initial_state))
     = last (map marks_connected ns) false
  /\ ((forall n, In n ns -> n <> authenticated /\ n <> start_resolved) ->
      socketModeConnected (state_of (notify_all ns w initial_state)) = false).
Proof.
  assert (Hrun : socketModeConnected (state_of (notify_all ns w initial_state))
                 = last (map marks_connected ns) false).
  { destruct (notify_all_run ns w initial_state) as (tr & E & _). now rewrite E. }
  split; [reflexivity|]. split; [|split; [exact Hrun|]].
  - intros n s. destruct (notify_run n w s) as (tr & E & _). now rewrite E.
  - intros Hnone. rewrite Hrun. apply last_all_false.
    intros b Hb. apply in_map_iff in Hb as (n & <- & Hn).
    destruct (Hnone n Hn) as [Ha Hs]. destruct n; try reflexivity; congruence.
Qed.

Lemma connectivity_flag_follows_last_notification_witness :
  socketModeConnected
    (state_of (notify_all [connecting; bolt_error; reconnecting] sample_world initial_state))
  = false.
Proof.
  apply (connectivity_flag_follows_last_notification
           sample_world [connecting; bolt_error; reconnecting]).
  intros n [<-|[<-|[<-|[]]]]; split; discriminate.
Defined.

(** ** Outbound calls *)

Lemma await_run {A : Type} (outcome : world -> nat -> A) (w : world) (s : state) :
  exists s1 tr,
    await outcome w s = (Returned (outcome w (waits s)), s1, tr)
    /\ waits s1 = S (waits s) /\ quiet tr.
Proof.
  unfold await.
  destruct (notify_all_run (notifications_during w (waits s)) w
              {| socketModeConnected := socketModeConnected s; waits := S (waits s) |})
    as (tr & E & Q).
  rewrite E. eexists _, tr. repeat split. exact Q.
Qed.

(** A call of [chat.postMessage] is one [ChatPostMessage] action followed by
    console output only; it throws what the Slack client rejects with. *)
Lemma postMessage_run (p : SlackPayload) (w : world) (s : state) :
  exists s1 tr,
    App.postMessage p w s
    = (match chat_postMessage w (waits s) p with
       | None => Returned tt
       | Some e => Threw e
       end, s1, ChatPostMessage p :: tr)
    /\ quiet tr.
Proof.
  unfold App.postMessage, bind, emit.
  destruct (await_run (fun w t => chat_postMessage w t p) w s) as (s1 & tr & E & _ & Q).
  rewrite E. cbn beta.
  destruct (chat_postMessage w (waits s) p); cbn;
    eexists _, tr; rewrite ?app_nil_r; split; (reflexivity || exact Q).
Qed.

Lemma sendWebhookMessage_run (u : option string) (p : SlackPayload) (w : world) (s : state) :
  exists r s1 tr,
    SlackClient.sendWebhookMessage u p w s = (r, s1, SendWebhookMessage u p :: tr)
    /\ quiet tr
    /\ (forall url, u = Some url -> r = settle (https_request w (waits s) url p)).
Proof.
  unfold SlackClient.sendWebhookMessage, bind, emit.
  destruct u as [url|].
  - destruct (await_run (fun w t => https_request w t url p) w s) as (s1 & tr & E & _ & Q).
    rewrite E. cbn beta.
    destruct (https_request w (waits s) url p) as [code data|msg|msg] eqn:Eo; cbn.
    + destruct ((200 <=? code)%Z && (code <? 300)%Z) eqn:Ec; cbn;
        eexists _, _, tr; rewrite ?app_nil_r; repeat split; try exact Q;
        intros url' [= <-]; rewrite Eo; cbn; now rewrite Ec.
    + eexists _, _, tr; rewrite ?app_nil_r; repeat split; try exact Q.
      intros url' [= <-]; now rewrite Eo.
    + eexists _, _, tr; rewrite ?app_nil_r; repeat split; try exact Q.
      intros url' [= <-]; now rewrite Eo.
  - cbn. eexists _, _, []. repeat split. discriminate.
Qed.

(** ** The delivery block *)

Ltac run_call :=
  match goal with
  | |- context [SlackClient.sendWebhookMessage ?u ?p ?w ?s] =>
      let r := fresh "r" in
      let s1 := fresh "s" in
      let tr := fresh "tr" in
      let E := fresh "E" in
      let Q := fresh "Q" in
      let R := fresh "R" in
      destruct (sendWebhookMessage_run u p w s) as (r & s1 & tr & E & Q & R);
      rewrite E; clear E
  | |- context [App.postMessage ?p ?w ?s] =>
      let s1 := fresh "s" in
      let tr := fresh "tr" in
      let E := fresh "E" in
      let Q := fresh "Q" in
      destruct (postMessage_run p w s) as (s1 & tr & E & Q);
      rewrite E; clear E
  end.

Ltac open_deliver :=
  unfold App.deliver;
  cbv [bind try_catch ask read_socketModeConnected console emit ret].

Ltac tidy_trace :=
  unfold count, events_of, value_of; cbn [snd fst app];
  repeat (rewrite ?filter_app;
          cbn [filter is_delivery is_postMessage is_webhook is_response orb app length]);
  repeat match goal with
         | Q : quiet ?tr |- _ =>
             rewrite ?(quiet_no_delivery tr Q), ?(quiet_no_postMessage tr Q),
               ?(quiet_no_webhook tr Q), ?(quiet_no_response tr Q);
             clear Q
         end;
  cbn [app length].

(** Every case of the delivery block at once: [P] holds of its result when
    it holds of each of the five ways the block can run. *)
Ltac deliver_cases Hflag :=
  open_deliver;
  match type of Hflag with
  | socketModeConnected ?s = _ => rewrite Hflag
  end;
  run_call;
  match goal with
  | |- context [match ?r with Returned _ => _ | Threw _ => _ end] =>
      let e := fresh "e" in
      destruct r as [?|e] eqn:?;
      [| destruct (App.not_fallback_already_used e) eqn:?;
         [ run_call;
           match goal with
           | |- context [match ?r2 with Returned _ => _ | Threw _ => _ end] =>
               destruct r2 as [?|?] eqn:?
           end
         | ] ]
  end.

(** The block swallows every delivery error. *)
Lemma deliver_never_throws (message : RenderedMessage) (w : world) (s : state) :
  value_of (App.deliver message w s) = Returned tt.
Proof.
  destruct (socketModeConnected s) eqn:Hflag.
  - open_deliver. rewrite Hflag. run_call.
    destruct (chat_postMessage w (waits s) (App.payload_of w message)) as [e|].
    + destruct (App.not_fallback_already_used e); [run_call; destruct r|]; reflexivity.
    + reflexivity.
  - deliver_cases Hflag; reflexivity.
Qed.

(** Delivery writes no HTTP response. *)
Lemma deliver_no_response (message : RenderedMessage) (w : world) (s : state) :
  filter is_response (events_of (App.deliver message w s)) = [].
Proof.
  destruct (socketModeConnected s) eqn:Hflag.
  - open_deliver. rewrite Hflag. run_call.
    destruct (chat_postMessage w (waits s) (App.payload_of w message)) as [e|].
    + destruct (App.not_fallback_already_used e); [run_call; destruct r|];
        tidy_trace; reflexivity.
    + tidy_trace; reflexivity.
  - deliver_cases Hflag; tidy_trace; reflexivity.
Qed.

(** At most one persistent-session call and at most two calls in all. *)
Lemma deliver_call_bounds (message : RenderedMessage) (w : world) (s : state) :
  count is_postMessage (events_of (App.deliver message w s)) <= 1
  /\ count is_delivery (events_of (App.deliver message w s)) <= 2.
Proof.
  destruct (socketModeConnected s) eqn:Hflag.
  - open_deliver. rewrite Hflag. run_call.
    destruct (chat_postMessage w (waits s) (App.payload_of w message)) as [e|].
    + destruct (App.not_fallback_already_used e); [run_call; destruct r|];
        tidy_trace; lia.
    + tidy_trace; lia.
  - deliver_cases Hflag; tidy_trace; lia.
Qed.

(** Connected and the persistent session accepts the message: that one call
    is the whole delivery. *)
Lemma connected_success_single_call (message : RenderedMessage) (w : world) (s : state) :
  socketModeConnected s = true ->
  chat_postMessage w (waits s) (App.payload_of w message) = None ->
  filter is_delivery (events_of (App.deliver message w s))
  = [ChatPostMessage (App.payload_of w message)].
Proof.
  intros Hflag Hpost. open_deliver. rewrite Hflag. run_call. rewrite Hpost.
  tidy_trace. reflexivity.
Qed.

(** C1 fails on the code.  With the session disconnected and a webhook
    endpoint that answers 500, the first attempt is the webhook call; its
    rejection carries no [message], so the guard of the [catch] block lets
    the backup run and the webhook is called a second time. *)
Lemma webhook_called_twice_when_disconnected :
  socketModeConnected initial_state = false
  /\ events_of (App.deliver sample_message (failing_world (JsError "socket closed") 500)
                  initial_state)
     = [Console log "Socket Mode disconnected, using webhook fallback...";
        SendWebhookMessage (SLACK_WEBHOOK_URL sample_env)
                           (App.payload_of sample_world sample_message);
        Console error "Error posting to Slack:";
        Console log "Trying webhook as backup...";
        SendWebhookMessage (SLACK_WEBHOOK_URL sample_env)
                           (App.payload_of sample_world sample_message);
        Console error "Both Slack delivery methods failed:"]
  /\ count is_webhook
       (events_of (App.deliver sample_message (failing_world (JsError "socket closed") 500)
                     initial_state))
     = 2.
Proof. repeat split. Qed.

(** The same for every message and world: disconnected, and a first webhook
    request that is answered with a status outside 2xx. *)
Lemma disconnected_rejection_repeats_webhook
      (message : RenderedMessage) (w : world) (s : state)
      (url : string) (code : Z) (data : string) :
  socketModeConnected s = false ->
  SLACK_WEBHOOK_URL (env w) = Some url ->
  https_request w (waits s) url (App.payload_of w message) = HttpsResponse code data ->
  ((200 <=? code)%Z && (code <? 300)%Z) = false ->
  filter is_delivery (events_of (App.deliver message w s))
  = [SendWebhookMessage (Some url) (App.payload_of w message);
     SendWebhookMessage (Some url) (App.payload_of w message)].
Proof.
  intros Hflag Hurl Hreq Hcode. open_deliver. rewrite Hflag, Hurl. run_call.
  rewrite (R url eq_refl), Hreq. cbn [settle]. rewrite Hcode.
  cbn [App.not_fallback_already_used message_of]. run_call.
  destruct r0; tidy_trace; reflexivity.
Qed.

(** C2 as stated fails: an error whose message is the reserved text makes
    the [catch] block skip the webhook. *)
Lemma no_fallback_for_reserved_message :
  socketModeConnected connected_state = true
  /\ chat_postMessage (failing_world (JsError "webhook fallback already used") 500)
       (waits connected_state)
       (App.payload_of (failing_world (JsError "webhook fallback already used") 500)
                       sample_message)
     = Some (JsError "webhook fallback already used")
  /\ count is_webhook
       (events_of (App.deliver sample_message
                     (failing_world (JsError "webhook fallback already used") 500)
                     connected_state))
     = 0.
Proof. repeat split. Qed.

(** C2, amended.  When the flag is on and the persistent-session send throws
    an error whose message is not 'webhook fallback already used', the
    delivery makes exactly two calls: the persistent-session send and then
    the webhook, once. *)
Theorem failed_post_falls_back_once
        (message : RenderedMessage) (w : world) (s : state) (e : thrown) :
  socketModeConnected s = true ->
  chat_postMessage w (waits s) (App.payload_of w message) = Some e ->
  message_of e <> Some "webhook fallback already used" ->
  filter is_delivery (events_of (App.deliver message w s))
  = [ChatPostMessage (App.payload_of w message);
     SendWebhookMessage (SLACK_WEBHOOK_URL (env w)) (App.payload_of w message)]
  /\ count is_webhook (events_of (App.deliver message w s)) = 1.
Proof.
  intros Hflag Hpost Hmsg.
  assert (Hguard : App.not_fallback_already_used e = true).
  { unfold App.not_fallback_already_used. destruct (message_of e) as [m|]; [|reflexivity].
    apply negb_true_iff, String.eqb_neq. congruence. }
  open_deliver. rewrite Hflag. run_call. rewrite Hpost, Hguard. run_call.
  destruct r; split; tidy_trace; reflexivity.
Qed.

Lemma failed_post_falls_back_once_witness :
  filter is_delivery
    (events_of (App.deliver sample_message (failing_world (JsError "socket closed") 500)
                  connected_state))
  = [ChatPostMessage (App.payload_of sample_world sample_message);
     SendWebhookMessage (SLACK_WEBHOOK_URL sample_env)
                        (App.payload_of sample_world sample_message)]
  /\ count is_webhook
       (events_of (App.deliver sample_message (failing_world (JsError "socket closed") 500)
                     connected_state))
     = 1.
Proof.
  apply (failed_post_falls_back_once sample_message
           (failing_world (JsError "socket closed") 500) connected_state
           (JsError "socket closed")).
  - reflexivity.
  - reflexivity.
  - discriminate.
Defined.

(** C3.  When the flag is off at the start of a delivery, the
    persistent-session send is never invoked, and the first outbound call is
    the webhook. *)
Theorem disconnected_skips_persistent_session
        (message : RenderedMessage) (w : world) (s : state) :
  socketModeConnected s = false ->
  filter is_postMessage (events_of (App.deliver message w s)) = []
  /\ exists rest,
       filter is_delivery (events_of (App.deliver message w s))
       = SendWebhookMessage (SLACK_WEBHOOK_URL (env w)) (App.payload_of w message) :: rest
       /\ filter is_postMessage rest = [].
Proof.
  intros Hflag.
  deliver_cases Hflag; (split; [tidy_trace; reflexivity|]);
    tidy_trace; eexists; split; reflexivity.
Qed.

Lemma disconnected_skips_persistent_session_witness :
  filter is_postMessage (events_of (App.deliver sample_message sample_world initial_state)) = []
  /\ exists rest,
       filter is_delivery (events_of (App.deliver sample_message sample_world initial_state))
       = SendWebhookMessage (SLACK_WEBHOOK_URL (env sample_world))
                            (App.payload_of sample_world sample_message) :: rest
       /\ filter is_postMessage rest = [].
Proof.
  apply (disconnected_skips_persistent_session sample_message sample_world initial_state).
  reflexivity.
Defined.

(** ** The route handler *)

(** When the event type can be converted to text, the handler logs,
    acknowledges with 200, and only then renders and delivers; nothing
    after the acknowledgment writes a response, and the handler itself
    never throws. *)
Lemma webhookHandler_run (req : request) (w : world) (s : state) :
  cannot_convert (property "eventType" (body req)) = false ->
  exists s1 rest,
    App.webhookHandler req w s
    = (Returned tt, s1,
       Console log "Received MCP webhook: ${eventType}" :: Respond 200 "Webhook received" :: rest)
    /\ filter is_response rest = [].
Proof.
  intros Hprintable. unfold App.webhookHandler, App.interpolate. rewrite Hprintable.
  cbv [bind try_catch ask console respond emit ret throw].
  destruct (formatSlackMessage w _ _ _) as [e|message].
  - eexists _, _. split; reflexivity.
  - pose proof (deliver_never_throws message w s) as Hv.
    pose proof (deliver_no_response message w s) as Hr.
    destruct (App.deliver message w s) as [[r s1] tr].
    unfold value_of in Hv. unfold events_of in Hr. cbn [fst snd] in Hv, Hr. subst r.
    eexists _, _. split; [reflexivity|]. cbn [app]. exact Hr.
Qed.

(** When it cannot, the first log line throws before the response is
    written: the handler logs the error and does nothing else. *)
Lemma webhookHandler_unprintable (req : request) (w : world) (s : state) :
  cannot_convert (property "eventType" (body req)) = true ->
  App.webhookHandler req w s = (Returned tt, s, [Console error "Error processing webhook:"]).
Proof.
  intros Hunprintable. unfold App.webhookHandler, App.interpolate. rewrite Hunprintable.
  reflexivity.
Qed.

(** The four ways through the middleware. *)
Lemma middleware_without_secret (req : request) (next : M unit) (w : world) (s : state) :
  truthy (MCP_WEBHOOK_SIGNING_SECRET (env w)) = None ->
  Verifier.mcpVerifyMiddleware req next w s
  = (Returned tt, s,
     [Console error "[MCP Verify Middleware] Error: MCP_WEBHOOK_SIGNING_SECRET is not set. Denying request.";
      Respond 500 "Webhook signing secret not configured."]).
Proof.
  intros Hsec. unfold Verifier.mcpVerifyMiddleware.
  cbv [bind ask console respond emit]. now rewrite Hsec.
Qed.

Lemma middleware_without_header
      (req : request) (next : M unit) (w : world) (s : state) (secret : string) :
  truthy (MCP_WEBHOOK_SIGNING_SECRET (env w)) = Some secret ->
  truthy (req_get req "MCP-Signature") = None ->
  Verifier.mcpVerifyMiddleware req next w s
  = (Returned tt, s,
     [Console warn "[MCP Verify Middleware] Warning: Missing MCP-Signature header from IP: ${req.ip}. Denying request.";
      Respond 400 "Missing signature header."]).
Proof.
  intros Hsec Hhdr. unfold Verifier.mcpVerifyMiddleware.
  cbv [bind ask console respond emit]. now rewrite Hsec, Hhdr.
Qed.

Lemma middleware_without_rawBody
      (req : request) (next : M unit) (w : world) (s : state) (secret header : string) :
  truthy (MCP_WEBHOOK_SIGNING_SECRET (env w)) = Some secret ->
  truthy (req_get req "MCP-Signature") = Some header ->
  truthy (rawBody req) = None ->
  Verifier.mcpVerifyMiddleware req next w s
  = (Returned tt, s,
     [Console error "[MCP Verify Middleware] Error: req.rawBody is not available. Ensure express.json({ verify: ... }) is used correctly for this route. Denying request.";
      Respond 500 "Raw request body not available for verification."]).
Proof.
  intros Hsec Hhdr Hraw. unfold Verifier.mcpVerifyMiddleware.
  cbv [bind ask console respond emit]. now rewrite Hsec, Hhdr, Hraw.
Qed.

Lemma middleware_checks_signature
      (req : request) (next : M unit) (w : world) (s : state)
      (secret header raw : string) :
  truthy (MCP_WEBHOOK_SIGNING_SECRET (env w)) = Some secret ->
  truthy (req_get req "MCP-Signature") = Some header ->
  truthy (rawBody req) = Some raw ->
  exists verdict checks,
    Verifier.verifySignature raw header secret w s = (Returned verdict, s, checks)
    /\ filter is_delivery checks = [] /\ filter is_response checks = []
    /\ Verifier.mcpVerifyMiddleware req next w s
       = if verdict then
           match next w s with
           | (r, s1, tr) =>
               (r, s1,
                Console log "[DEBUG] req.rawBody:" :: checks
                  ++ Console log "[MCP Verify Middleware] Signature verified successfully for request from IP: ${req.ip}" :: tr)%list
           end
         else
           (Returned tt, s,
            Console log "[DEBUG] req.rawBody:" :: checks
              ++ [Console warn "[MCP Verify Middleware] Invalid signature for request from IP: ${req.ip}. Received signature: ${signatureHeader}. Denying request.";
                  Respond 401 "Invalid signature."])%list.
Proof.
  intros Hsec Hhdr Hraw.
  destruct (verifySignature_returns raw header secret w s) as (verdict & checks & E & Hd & Hr).
  exists verdict, checks. repeat split; try assumption.
  unfold Verifier.mcpVerifyMiddleware.
  cbv [bind ask console respond emit]. rewrite Hsec, Hhdr, Hraw, E.
  destruct verdict.
  - destruct (next w s) as [[r s1] tr]. reflexivity.
  - reflexivity.
Qed.

(** C5 fails on the code.  The body [{"eventType":{"toString":1}}] arrives
    with the signature of exactly these bytes, so the middleware hands the
    request to the handler.  The handler's first statement after reading
    the fields logs the event type, and converting this event type to text
    throws; the response is written by the statement after it, which is
    never reached.  The outer [catch] logs the error, and the request is
    left without any response and without any delivery call, although the
    comment in that [catch] says that 200 has already been sent. *)
Theorem signed_event_left_without_response :
  rawBody unprintable_request = Some ("{" ++ quoted "eventType" ++ ":{" ++ quoted "toString" ++ ":1}}")
  /\ value_of (Verifier.verifySignature
                 ("{" ++ quoted "eventType" ++ ":{" ++ quoted "toString" ++ ":1}}")
                 "sha256=3089d526aa94ea39d09fd6a48f8a77a0e693c5dfd6b2bbac0e6b47b44bb5624b"
                 "s3cret" sample_world connected_state)
     = Returned true
  /\ value_of (App.postWebhook unprintable_request sample_world connected_state) = Returned tt
  /\ filter is_response
       (events_of (App.postWebhook unprintable_request sample_world connected_state))
     = []
  /\ filter is_delivery
       (events_of (App.postWebhook unprintable_request sample_world connected_state))
     = []
  /\ filter is_console
       (events_of (App.postWebhook unprintable_request sample_world connected_state))
     = [Console log "[DEBUG] req.rawBody:";
        Console log "[MCP Verify Middleware] Signature verified successfully for request from IP: ${req.ip}";
        Console error "Error processing webhook:"].
Proof. vm_compute. repeat split. Qed.

(** What does hold of the acknowledgment: for a request whose signature
    verifies and whose event type can be converted to text (every string
    can), the route writes exactly one response, 200 'Webhook received',
    and writes it before any delivery call is made: everything before it
    in the trace is console output and the signature check, and no
    response follows it.  This holds in every world, so whatever the two
    channels do afterwards (succeed, reject, throw) the response is the
    same. *)
Lemma printable_event_acknowledged_before_delivery
      (req : request) (w : world) (s : state) (secret header raw : string) :
  truthy (MCP_WEBHOOK_SIGNING_SECRET (env w)) = Some secret ->
  truthy (req_get req "MCP-Signature") = Some header ->
  truthy (rawBody req) = Some raw ->
  value_of (Verifier.verifySignature raw header secret w s) = Returned true ->
  cannot_convert (property "eventType" (body req)) = false ->
  exists before after,
    events_of (App.postWebhook req w s)
    = (before ++ Respond 200 "Webhook received" :: after)%list
    /\ filter is_delivery before = []
    /\ filter is_response before = []
    /\ filter is_response after = []
    /\ filter is_response (events_of (App.postWebhook req w s))
       = [Respond 200 "Webhook received"].
Proof.
  intros Hsec Hhdr Hraw Hvalid Hprintable. unfold App.postWebhook.
  destruct (middleware_checks_signature req (App.webhookHandler req) w s secret header raw
              Hsec Hhdr Hraw) as (verdict & checks & E & Hd & Hr & Hrun).
  rewrite E in Hvalid. apply Returned_inj in Hvalid. subst verdict.
  rewrite Hrun.
  destruct (webhookHandler_run req w s Hprintable) as (s1 & rest & Eh & Hrest). rewrite Eh.
  exists (Console log "[DEBUG] req.rawBody:" :: checks
            ++ [Console log "[MCP Verify Middleware] Signature verified successfully for request from IP: ${req.ip}";
                Console log "Received MCP webhook: ${eventType}"])%list, rest.
  unfold events_of. cbn [snd].
  repeat split.
  - cbn [app]. rewrite <- app_assoc. reflexivity.
  - cbn [app filter is_delivery is_postMessage is_webhook orb].
    rewrite filter_app, Hd. reflexivity.
  - cbn [app filter is_response]. rewrite filter_app, Hr. reflexivity.
  - exact Hrest.
  - cbn [app filter is_response]. rewrite filter_app, Hr.
    cbn [app filter is_response]. now rewrite Hrest.
Qed.




(** The capture callback leaves the request alone when the buffer is empty. *)
Lemma empty_buffer_not_captured (req : request) (encoding : option string) :
  Verifier.getExpressVerifyCallback req "" encoding = req.
Proof. reflexivity. Qed.

(** C10.  A POST to the webhook path whose body is empty is answered 500
    'Raw request body not available for verification.' although the signing
    secret is configured and a signature header is present: the capture
    callback sets [req.rawBody] only for a non-empty buffer, so the
    middleware finds no raw body.  [req] is the request as Express creates
    it, without [rawBody]; for an empty body the parser calls the capture
    callback with the empty buffer or not at all, and the route answers the
    same in both cases.  (A request that the body parser answers itself,
    for an unsupported charset or content encoding, does not reach the
    route.) *)
Theorem empty_body_rejected_with_500
        (req : request) (encoding : option string) (w : world) (s : state)
        (secret header : string) :
  rawBody req = None ->
  truthy (MCP_WEBHOOK_SIGNING_SECRET (env w)) = Some secret ->
  truthy (req_get req "MCP-Signature") = Some header ->
  rawBody (Verifier.getExpressVerifyCallback req "" encoding) = None
  /\ App.postWebhook (Verifier.getExpressVerifyCallback req "" encoding) w s
     = (Returned tt, s,
        [Console error "[MCP Verify Middleware] Error: req.rawBody is not available. Ensure express.json({ verify: ... }) is used correctly for this route. Denying request.";
         Respond 500 "Raw request body not available for verification."])
  /\ App.postWebhook req w s
     = (Returned tt, s,
        [Console error "[MCP Verify Middleware] Error: req.rawBody is not available. Ensure express.json({ verify: ... }) is used correctly for this route. Denying request.";
         Respond 500 "Raw request body not available for verification."]).
Proof.
  intros Hraw Hsec Hhdr. rewrite empty_buffer_not_captured.
  split; [exact Hraw|].
  unfold App.postWebhook.
  rewrite (middleware_without_rawBody _ _ _ _ secret header);
    [split; reflexivity | assumption | assumption | now rewrite Hraw].
Qed.

Lemma empty_body_rejected_with_500_witness :
  rawBody (Verifier.getExpressVerifyCallback bodiless_request "" (Some "utf-8")) = None
  /\ App.postWebhook (Verifier.getExpressVerifyCallback bodiless_request "" (Some "utf-8"))
                     sample_world initial_state
     = (Returned tt, initial_state,
        [Console error "[MCP Verify Middleware] Error: req.rawBody is not available. Ensure express.json({ verify: ... }) is used correctly for this route. Denying request.";
         Respond 500 "Raw request body not available for verification."])
  /\ App.postWebhook bodiless_request sample_world initial_state
     = (Returned tt, initial_state,
        [Console error "[MCP Verify Middleware] Error: req.rawBody is not available. Ensure express.json({ verify: ... }) is used correctly for this route. Denying request.";
         Respond 500 "Raw request body not available for verification."]).
Proof.
  apply (empty_body_rejected_with_500 bodiless_request (Some "utf-8") sample_world
           initial_state "s3cret" "sha256=00"); reflexivity.
Defined.

(* ================================================================= *)
(** * Further properties of the same code *)

(** ** The digest *)

Lemma round_length (st : list N) (kw : N * N) :
  List.length (Crypto.round st kw) = List.length st.
Proof.
  unfold Crypto.round.
  destruct st as [|a [|b [|c [|d [|e [|f [|g [|h [|i rest]]]]]]]]]; reflexivity.
Qed.

Lemma rounds_length (kws : list (N * N)) (st : list N) :
  List.length (fold_left Crypto.round kws st) = List.length st.
Proof.
  revert st; induction kws as [|kw kws IH]; intros st; [reflexivity|].
  cbn [fold_left]. now rewrite IH, round_length.
Qed.

Lemma compress_length (h ws : list N) :
  List.length (Crypto.compress h ws) = List.length h.
Proof.
  unfold Crypto.compress.
  rewrite length_map, length_combine, rounds_length. apply Nat.min_id.
Qed.

Lemma absorb_length (blocks : nat) (h bs : list N) :
  List.length (Crypto.absorb blocks h bs) = List.length h.
Proof.
  revert h bs; induction blocks as [|k IH]; intros h bs; [reflexivity|].
  cbn [Crypto.absorb]. now rewrite IH, compress_length.
Qed.

Lemma words_to_bytes_length (ws : list N) :
  List.length (flat_map Crypto.bytes_of_word ws) = 4 * List.length ws.
Proof.
  induction ws as [|x ws IH]; [reflexivity|].
  cbn [flat_map]. rewrite length_app, IH. cbn [Crypto.bytes_of_word List.length]. lia.
Qed.

Lemma sha256_N_length (msg : list N) : List.length (Crypto.sha256_N msg) = 32.
Proof.
  unfold Crypto.sha256_N. cbv zeta.
  now rewrite words_to_bytes_length, absorb_length.
Qed.

Lemma hmac_sha256_length (key msg : list byte) :
  List.length (Crypto.hmac_sha256 key msg) = 32.
Proof. unfold Crypto.hmac_sha256. cbv zeta. now rewrite length_map, sha256_N_length. Qed.

Lemma encode_length (bs : list byte) : String.length (Hex.encode bs) = 2 * List.length bs.
Proof.
  induction bs as [|b bs IH]; [reflexivity|].
  cbn [Hex.encode Hex.encode_byte append String.length List.length]. rewrite IH. lia.
Qed.

Lemma encode_lower_hex (bs : list byte) : all_chars is_lower_hex (Hex.encode bs) = true.
Proof.
  induction bs as [|b bs IH]; [reflexivity|].
  cbn [Hex.encode Hex.encode_byte append all_chars]. rewrite IH.
  destruct b; reflexivity.
Qed.

(** ** More on the signature verifier *)

Lemma digest_cons (key msg : list byte) :
  exists b bs, Crypto.hmac_sha256 key msg = b :: bs.
Proof.
  pose proof (hmac_sha256_length key msg) as H.
  destruct (Crypto.hmac_sha256 key msg) as [|b bs]; [discriminate H|eauto].
Qed.

Lemma encode_byte_not_empty (b : byte) (rest : string) :
  Hex.encode_byte b ++ rest <> "".
Proof. discriminate. Qed.

Lemma without_tag_hex (b : byte) (rest : string) :
  without_tag (Hex.encode_byte b ++ rest) = Hex.encode_byte b ++ rest.
Proof. destruct b; reflexivity. Qed.

Lemma string_append_assoc (a b c : string) : (a ++ b) ++ c = a ++ (b ++ c).
Proof. induction a as [|x a IH]; [reflexivity|]. cbn [append]. now rewrite IH. Qed.

Lemma decode_encode_append (bs : list byte) (rest : string) :
  Hex.decode (Hex.encode bs ++ rest) = (bs ++ Hex.decode rest)%list.
Proof.
  induction bs as [|b bs IH]; [reflexivity|].
  cbn [Hex.encode]. rewrite string_append_assoc, decode_encode_byte, IH. reflexivity.
Qed.

Lemma decode_uppercase_encode_byte (b : byte) (rest : string) :
  Hex.decode (uppercase (Hex.encode_byte b ++ rest)) = b :: Hex.decode (uppercase rest).
Proof. destruct b; reflexivity. Qed.

Lemma decode_uppercase_encode (bs : list byte) :
  Hex.decode (uppercase (Hex.encode bs)) = bs.
Proof.
  induction bs as [|b bs IH]; [reflexivity|].
  cbn [Hex.encode]. now rewrite decode_uppercase_encode_byte, IH.
Qed.

(** A non-empty signature that decodes to the digest is accepted, after one
    [timingSafeEqual] call. *)
Lemma verifySignature_accepts (payload signature secret : string) (w : world) (s : state) :
  payload <> "" -> signature <> "" -> secret <> "" ->
  Hex.decode (without_tag signature) = Crypto.hmac_sha256 (utf8 secret) (utf8 payload) ->
  Verifier.verifySignature payload signature secret w s
  = (Returned true, s,
     [TimingSafeEqual (Crypto.hmac_sha256 (utf8 secret) (utf8 payload))
                      (Crypto.hmac_sha256 (utf8 secret) (utf8 payload))]).
Proof.
  intros Hp Hg Hs Hdec. rewrite verifySignature_run by assumption. cbv zeta.
  now rewrite Hdec, Nat.eqb_refl, buffer_eqb_refl.
Qed.

(** X1.  [verifySignature] returns a boolean on every input: it never
    throws (although [generateSignature] and [timingSafeEqual] can) and it
    leaves the process state alone.  When any of the three arguments is
    empty the result is [false] and nothing is logged or compared. *)
Theorem verifySignature_never_throws (payload signature secret : string) (w : world) (s : state) :
  exists verdict tr,
    Verifier.verifySignature payload signature secret w s = (Returned verdict, s, tr)
    /\ (payload = "" \/ signature = "" \/ secret = "" -> verdict = false /\ tr = []).
Proof.
  destruct (string_dec payload "") as [Hp|Hp];
    [eexists _, _; rewrite verifySignature_empty by auto; split; [reflexivity|now split]|].
  destruct (string_dec signature "") as [Hg|Hg];
    [eexists _, _; rewrite verifySignature_empty by auto; split; [reflexivity|now split]|].
  destruct (string_dec secret "") as [Hs|Hs];
    [eexists _, _; rewrite verifySignature_empty by auto; split; [reflexivity|now split]|].
  destruct (verifySignature_returns payload signature secret w s) as (verdict & tr & E & _).
  exists verdict, tr. split; [exact E|]. intros [H|[H|H]]; contradiction.
Qed.

Lemma verifySignature_never_throws_witness :
  exists verdict tr,
    Verifier.verifySignature "{}" "sha256=00" "" sample_world initial_state
    = (Returned verdict, initial_state, tr)
    /\ verdict = false /\ tr = [].
Proof.
  destruct (verifySignature_never_throws "{}" "sha256=00" "" sample_world initial_state)
    as (verdict & tr & E & H).
  exists verdict, tr. split; [exact E|]. apply H. right; right; reflexivity.
Defined.

(** X2.  For non-empty arguments [verifySignature] returns [true] exactly
    when the received signature, with the tag stripped if present and
    decoded as hex, equals the HMAC-SHA256 digest of the payload under the
    secret. *)
Theorem verifySignature_accepts_iff
        (payload signature secret : string) (w : world) (s : state) :
  payload <> "" -> signature <> "" -> secret <> "" ->
  value_of (Verifier.verifySignature payload signature secret w s) = Returned true
  <-> Hex.decode (without_tag signature) = Crypto.hmac_sha256 (utf8 secret) (utf8 payload).
Proof.
  intros Hp Hg Hs. rewrite verifySignature_run by assumption. cbv zeta.
  destruct (Nat.eqb _ _) eqn:Hlen; unfold value_of; cbn [fst].
  - split.
    + intros H. apply Returned_inj in H. symmetry. now apply buffer_eqb_eq.
    + intros H. rewrite H. now rewrite buffer_eqb_refl.
  - split; [discriminate|].
    intros H. rewrite H, Nat.eqb_refl in Hlen. discriminate.
Qed.

Lemma verifySignature_accepts_iff_witness :
  value_of (Verifier.verifySignature "{}"
              "sha256=adbde1ce40c89c14215687d5d762a47df6dfaefcfad61e2e86718ffc8498571b"
              "s3cret" sample_world initial_state) = Returned true
  <-> Hex.decode (without_tag
                    "sha256=adbde1ce40c89c14215687d5d762a47df6dfaefcfad61e2e86718ffc8498571b")
      = Crypto.hmac_sha256 (utf8 "s3cret") (utf8 "{}").
Proof.
  apply (verifySignature_accepts_iff "{}"
           "sha256=adbde1ce40c89c14215687d5d762a47df6dfaefcfad61e2e86718ffc8498571b"
           "s3cret" sample_world initial_state); discriminate.
Defined.

(** X3.  The algorithm tag is optional: the bare hex digest, without
    'sha256=', is accepted. *)
Theorem bare_digest_accepted (payload secret : string) (w : world) (s : state) :
  payload <> "" -> secret <> "" ->
  value_of (Verifier.verifySignature payload
              (Hex.encode (Crypto.hmac_sha256 (utf8 secret) (utf8 payload))) secret w s)
  = Returned true.
Proof.
  intros Hp Hs.
  destruct (digest_cons (utf8 secret) (utf8 payload)) as (b & bs & E).
  rewrite verifySignature_accepts; try assumption; [reflexivity| |].
  - rewrite E. cbn [Hex.encode]. apply encode_byte_not_empty.
  - rewrite E at 1. cbn [Hex.encode]. rewrite without_tag_hex.
    change (Hex.encode_byte b ++ Hex.encode bs) with (Hex.encode (b :: bs)).
    now rewrite decode_encode.
Qed.

Lemma bare_digest_accepted_witness :
  value_of (Verifier.verifySignature "{}"
              (Hex.encode (Crypto.hmac_sha256 (utf8 "s3cret") (utf8 "{}"))) "s3cret"
              sample_world initial_state)
  = Returned true.
Proof.
  apply (bare_digest_accepted "{}" "s3cret" sample_world initial_state); discriminate.
Defined.

(** X4.  The hex digits may be in upper case, the tag may not: the tagged
    signature with its digits upper-cased is accepted, the whole header
    upper-cased ('SHA256=...') is rejected. *)
Theorem hex_case_ignored_tag_case_not (payload secret : string) (w : world) (s : state) :
  payload <> "" -> secret <> "" ->
  value_of (Verifier.verifySignature payload
              ("sha256=" ++ uppercase (Hex.encode (Crypto.hmac_sha256 (utf8 secret) (utf8 payload))))
              secret w s)
  = Returned true
  /\ value_of (Verifier.verifySignature payload
                 (uppercase ("sha256=" ++ Hex.encode (Crypto.hmac_sha256 (utf8 secret) (utf8 payload))))
                 secret w s)
     = Returned false.
Proof.
  intros Hp Hs. split.
  - rewrite verifySignature_accepts; try assumption; [reflexivity|discriminate|].
    now rewrite without_tag_tagged, decode_uppercase_encode.
  - rewrite verifySignature_run; [|assumption|discriminate|assumption]. cbv zeta.
    rewrite hmac_sha256_length. reflexivity.
Qed.

Lemma hex_case_ignored_tag_case_not_witness :
  value_of (Verifier.verifySignature "{}"
              ("sha256=" ++ uppercase (Hex.encode (Crypto.hmac_sha256 (utf8 "s3cret") (utf8 "{}"))))
              "s3cret" sample_world initial_state)
  = Returned true
  /\ value_of (Verifier.verifySignature "{}"
                 (uppercase ("sha256=" ++ Hex.encode (Crypto.hmac_sha256 (utf8 "s3cret") (utf8 "{}"))))
                 "s3cret" sample_world initial_state)
     = Returned false.
Proof.
  apply (hex_case_ignored_tag_case_not "{}" "s3cret" sample_world initial_state); discriminate.
Defined.

(** X5.  Whatever follows a valid signature is ignored, as long as hex
    decoding stops right there, that is when [Buffer.from(suffix, 'hex')]
    is empty (the rest is a single UTF-16 code unit, or starts with two
    code units whose low bytes are not both hex digits): such a header is
    accepted. *)
Theorem undecodable_suffix_ignored
        (payload secret suffix : string) (w : world) (s : state) :
  payload <> "" -> secret <> "" ->
  Hex.decode suffix = [] ->
  value_of (Verifier.verifySignature payload
              (("sha256=" ++ Hex.encode (Crypto.hmac_sha256 (utf8 secret) (utf8 payload)))
                 ++ suffix)
              secret w s)
  = Returned true.
Proof.
  intros Hp Hs Hsuffix.
  rewrite verifySignature_accepts; try assumption; [reflexivity|discriminate|].
  rewrite string_append_assoc, without_tag_tagged, decode_encode_append, Hsuffix.
  apply app_nil_r.
Qed.

Lemma undecodable_suffix_ignored_witness :
  value_of (Verifier.verifySignature "{}"
              (("sha256=" ++ Hex.encode (Crypto.hmac_sha256 (utf8 "s3cret") (utf8 "{}")))
                 ++ ", anything")
              "s3cret" sample_world initial_state)
  = Returned true.
Proof.
  apply (undecodable_suffix_ignored "{}" "s3cret" ", anything" sample_world initial_state);
    [discriminate | discriminate | reflexivity].
Defined.

(** X6.  [generateSignature] throws 'Secret must be a non-empty string.'
    for the empty secret; for any other secret it returns 'sha256=' followed
    by exactly 64 characters, each one of 0-9 or a-f. *)
Theorem generateSignature_format (payload secret : string) (w : world) (s : state) :
  (secret = "" ->
   Verifier.generateSignature payload secret w s
   = (Threw (JsError "Secret must be a non-empty string."), s, []))
  /\ (secret <> "" ->
      exists digits,
        Verifier.generateSignature payload secret w s = (Returned ("sha256=" ++ digits), s, [])
        /\ String.length digits = 64
        /\ all_chars is_lower_hex digits = true).
Proof.
  split.
  - intros ->. reflexivity.
  - intros Hs. eexists. split; [now apply generateSignature_run|].
    split; [|apply encode_lower_hex].
    now rewrite encode_length, hmac_sha256_length.
Qed.

Lemma generateSignature_format_witness :
  Verifier.generateSignature "{}" "" sample_world initial_state
  = (Threw (JsError "Secret must be a non-empty string."), initial_state, [])
  /\ exists digits,
       Verifier.generateSignature "{}" "s3cret" sample_world initial_state
       = (Returned ("sha256=" ++ digits), initial_state, [])
       /\ String.length digits = 64
       /\ all_chars is_lower_hex digits = true.
Proof.
  split.
  - apply (proj1 (generateSignature_format "{}" "" sample_world initial_state)). reflexivity.
  - apply (proj2 (generateSignature_format "{}" "s3cret" sample_world initial_state)).
    discriminate.
Defined.

(** ** More on the verification middleware *)

Lemma truthy_some (v : option string) (x : string) :
  truthy v = Some x -> v = Some x /\ x <> "".
Proof.
  unfold truthy. destruct v as [y|]; [|discriminate].
  destruct (String.eqb y "") eqn:E; [discriminate|].
  intros [= <-]. split; [reflexivity|]. now apply String.eqb_neq.
Qed.

Lemma truthy_of_non_empty (x : string) : x <> "" -> truthy (Some x) = Some x.
Proof. intros H. unfold truthy. now rewrite (eqb_empty_false _ H). Qed.

(** X7.  Unless the secret is configured, the header and the raw body are
    present and [verifySignature] returns [true], the middleware does not
    call [next]: its result is the same for every [next]; it returns
    normally, leaves the state alone and writes exactly one response, with
    status 400, 401 or 500. *)
Theorem next_not_called_without_valid_signature
        (req : request) (w : world) (s : state) (next next' : M unit) :
  (forall secret header raw,
      truthy (MCP_WEBHOOK_SIGNING_SECRET (env w)) = Some secret ->
      truthy (req_get req "MCP-Signature") = Some header ->
      truthy (rawBody req) = Some raw ->
      value_of (Verifier.verifySignature raw header secret w s) <> Returned true) ->
  Verifier.mcpVerifyMiddleware req next w s = Verifier.mcpVerifyMiddleware req next' w s
  /\ value_of (Verifier.mcpVerifyMiddleware req next w s) = Returned tt
  /\ state_of (Verifier.mcpVerifyMiddleware req next w s) = s
  /\ exists status text,
       filter is_response (events_of (Verifier.mcpVerifyMiddleware req next w s))
       = [Respond status text]
       /\ (status = 400 \/ status = 401 \/ status = 500)%Z.
Proof.
  intros Hbad.
  destruct (truthy (MCP_WEBHOOK_SIGNING_SECRET (env w))) as [secret|] eqn:Hsec.
  2:{ rewrite !middleware_without_secret by assumption.
      repeat split. eexists _, _. split; [reflexivity|auto]. }
  destruct (truthy (req_get req "MCP-Signature")) as [header|] eqn:Hhdr.
  2:{ rewrite !(middleware_without_header _ _ _ _ secret) by assumption.
      repeat split. eexists _, _. split; [reflexivity|auto]. }
  destruct (truthy (rawBody req)) as [raw|] eqn:Hraw.
  2:{ rewrite !(middleware_without_rawBody _ _ _ _ secret header) by assumption.
      repeat split. eexists _, _. split; [reflexivity|auto]. }
  specialize (Hbad secret header raw eq_refl eq_refl eq_refl).
  destruct (middleware_checks_signature req next w s secret header raw Hsec Hhdr Hraw)
    as (verdict & checks & E & Hd & Hr & Hrun).
  destruct (middleware_checks_signature req next' w s secret header raw Hsec Hhdr Hraw)
    as (verdict' & checks' & E' & _ & _ & Hrun').
  rewrite E in E'. injection E' as <- <-.
  rewrite E in Hbad. destruct verdict; [now contradiction Hbad|].
  rewrite Hrun, Hrun'. repeat split.
  eexists _, _. unfold events_of. cbn [snd filter is_response].
  rewrite filter_app, Hr. split; [reflexivity|auto].
Qed.

Lemma next_not_called_without_valid_signature_witness :
  Verifier.mcpVerifyMiddleware forged_request (App.webhookHandler forged_request)
    sample_world initial_state
  = Verifier.mcpVerifyMiddleware forged_request (ret tt) sample_world initial_state
  /\ value_of (Verifier.mcpVerifyMiddleware forged_request (App.webhookHandler forged_request)
                 sample_world initial_state) = Returned tt
  /\ state_of (Verifier.mcpVerifyMiddleware forged_request (App.webhookHandler forged_request)
                 sample_world initial_state) = initial_state
  /\ exists status text,
       filter is_response
         (events_of (Verifier.mcpVerifyMiddleware forged_request
                       (App.webhookHandler forged_request) sample_world initial_state))
       = [Respond status text]
       /\ (status = 400 \/ status = 401 \/ status = 500)%Z.
Proof.
  apply (next_not_called_without_valid_signature forged_request sample_world initial_state
           (App.webhookHandler forged_request) (ret tt)).
  intros secret header raw Hsec Hhdr Hraw.
  injection Hsec as <-. injection Hhdr as <-. injection Hraw as <-.
  vm_compute. discriminate.
Defined.

(** X8.  When the signature verifies, the middleware writes no response of
    its own and hands over to [next]: the trace is its console output
    followed by that of [next], and the outcome and final state are those
    of [next]. *)
Theorem verified_request_is_handed_to_next
        (req : request) (w : world) (s : state) (next : M unit)
        (secret header raw : string) :
  truthy (MCP_WEBHOOK_SIGNING_SECRET (env w)) = Some secret ->
  truthy (req_get req "MCP-Signature") = Some header ->
  truthy (rawBody req) = Some raw ->
  value_of (Verifier.verifySignature raw header secret w s) = Returned true ->
  exists before,
    events_of (Verifier.mcpVerifyMiddleware req next w s)
    = (before ++ events_of (next w s))%list
    /\ filter is_response before = []
    /\ value_of (Verifier.mcpVerifyMiddleware req next w s) = value_of (next w s)
    /\ state_of (Verifier.mcpVerifyMiddleware req next w s) = state_of (next w s).
Proof.
  intros Hsec Hhdr Hraw Hok.
  destruct (middleware_checks_signature req next w s secret header raw Hsec Hhdr Hraw)
    as (verdict & checks & E & Hd & Hr & Hrun).
  rewrite E in Hok. apply Returned_inj in Hok. subst verdict.
  rewrite Hrun. destruct (next w s) as [[r s1] tr].
  exists (Console log "[DEBUG] req.rawBody:" :: checks
            ++ [Console log "[MCP Verify Middleware] Signature verified successfully for request from IP: ${req.ip}"])%list.
  repeat split.
  - unfold events_of. cbn [snd app]. now rewrite <- app_assoc.
  - cbn [filter is_response]. rewrite filter_app, Hr. reflexivity.
Qed.

Lemma verified_request_is_handed_to_next_witness :
  exists before,
    events_of (Verifier.mcpVerifyMiddleware signed_request (throw (JsError "boom"))
                 sample_world initial_state)
    = (before ++ events_of (throw (A := unit) (JsError "boom") sample_world initial_state))%list
    /\ filter is_response before = []
    /\ value_of (Verifier.mcpVerifyMiddleware signed_request (throw (JsError "boom"))
                   sample_world initial_state)
       = value_of (throw (A := unit) (JsError "boom") sample_world initial_state)
    /\ state_of (Verifier.mcpVerifyMiddleware signed_request (throw (JsError "boom"))
                   sample_world initial_state)
       = state_of (throw (A := unit) (JsError "boom") sample_world initial_state).
Proof.
  apply (verified_request_is_handed_to_next signed_request sample_world initial_state
           (throw (JsError "boom")) "s3cret"
           "sha256=adbde1ce40c89c14215687d5d762a47df6dfaefcfad61e2e86718ffc8498571b" "{}");
    [reflexivity | reflexivity | reflexivity | vm_compute; reflexivity].
Defined.

(** X9.  A request whose MCP-Signature header (found whatever the case of
    the header name, which Node lower-cases) is what [generateSignature]
    computes for its raw body under the configured secret is acknowledged
    with 200 'Webhook received' when its event type can be converted to
    text; when it cannot, no response is written at all. *)
Theorem generated_signature_is_acknowledged
        (req : request) (w : world) (s : state) (secret raw signature : string) :
  truthy (MCP_WEBHOOK_SIGNING_SECRET (env w)) = Some secret ->
  truthy (rawBody req) = Some raw ->
  value_of (Verifier.generateSignature raw secret w s) = Returned signature ->
  header_value "mcp-signature" (headers req) = Some signature ->
  filter is_response (events_of (App.postWebhook req w s))
  = if cannot_convert (property "eventType" (body req)) then []
    else [Respond 200 "Webhook received"].
Proof.
  intros Hsec Hraw Hgen Hhdr.
  destruct (truthy_some _ _ Hsec) as [_ Hs]. destruct (truthy_some _ _ Hraw) as [_ Hr0].
  rewrite (generateSignature_run _ _ _ _ Hs) in Hgen.
  apply (Returned_inj
           ("sha256=" ++ Hex.encode (Crypto.hmac_sha256 (utf8 secret) (utf8 raw)))) in Hgen.
  assert (Hhdr' : truthy (req_get req "MCP-Signature") = Some signature).
  { unfold req_get. change (lowercase "MCP-Signature") with "mcp-signature".
    rewrite Hhdr. apply truthy_of_non_empty. rewrite <- Hgen. discriminate. }
  unfold App.postWebhook.
  destruct (middleware_checks_signature req (App.webhookHandler req) w s secret signature raw
              Hsec Hhdr' Hraw) as (verdict & checks & E & Hd & Hr & Hrun).
  rewrite verifySignature_accepts in E; try assumption.
  2:{ rewrite <- Hgen. discriminate. }
  2:{ rewrite <- Hgen. now rewrite without_tag_tagged, decode_encode. }
  injection E as <- <-. rewrite Hrun.
  destruct (cannot_convert (property "eventType" (body req))) eqn:Hconvert.
  - rewrite (webhookHandler_unprintable req w s Hconvert). reflexivity.
  - destruct (webhookHandler_run req w s Hconvert) as (s1 & rest & Eh & Hrest). rewrite Eh.
    unfold events_of. cbn [snd filter is_response app]. now rewrite Hrest.
Qed.

Lemma generated_signature_is_acknowledged_witness :
  filter is_response (events_of (App.postWebhook signed_request sample_world initial_state))
  = [Respond 200 "Webhook received"].
Proof.
  apply (generated_signature_is_acknowledged signed_request sample_world initial_state
           "s3cret" "{}"
           "sha256=adbde1ce40c89c14215687d5d762a47df6dfaefcfad61e2e86718ffc8498571b");
    [reflexivity | reflexivity | vm_compute; reflexivity | reflexivity].
Defined.

(** X10.  [generateTestSignature] throws 'MCP_WEBHOOK_SIGNING_SECRET not
    set' when the secret is missing or empty; otherwise it is
    [generateSignature] under the configured secret, and for a non-empty
    body its result is accepted by [verifySignature]. *)
Theorem generateTestSignature_round_trip (rawBodyString : string) (w : world) (s : state) :
  (truthy (MCP_WEBHOOK_SIGNING_SECRET (env w)) = None ->
   Verifier.generateTestSignature rawBodyString w s
   = (Threw (JsError "MCP_WEBHOOK_SIGNING_SECRET not set"), s, []))
  /\ (forall secret,
        truthy (MCP_WEBHOOK_SIGNING_SECRET (env w)) = Some secret ->
        Verifier.generateTestSignature rawBodyString w s
        = Verifier.generateSignature rawBodyString secret w s
        /\ (rawBodyString <> "" ->
            value_of ((signature <- Verifier.generateTestSignature rawBodyString ;;
                       Verifier.verifySignature rawBodyString signature secret) w s)
            = Returned true)).
Proof.
  split.
  - intros Hsec. unfold Verifier.generateTestSignature. cbv [bind ask]. now rewrite Hsec.
  - intros secret Hsec.
    assert (Hgen : Verifier.generateTestSignature rawBodyString w s
                   = Verifier.generateSignature rawBodyString secret w s).
    { unfold Verifier.generateTestSignature. cbv [bind ask]. rewrite Hsec.
      destruct (Verifier.generateSignature rawBodyString secret w s) as [[r s1] tr].
      reflexivity. }
    split; [exact Hgen|]. intros Hbody.
    destruct (truthy_some _ _ Hsec) as [_ Hs].
    unfold bind at 1. rewrite Hgen, (generateSignature_run _ _ _ _ Hs).
    rewrite verifySignature_accepts; try assumption; [reflexivity|discriminate|].
    now rewrite without_tag_tagged, decode_encode.
Qed.

Lemma generateTestSignature_round_trip_witness :
  Verifier.generateTestSignature "{}" unconfigured_world initial_state
  = (Threw (JsError "MCP_WEBHOOK_SIGNING_SECRET not set"), initial_state, [])
  /\ value_of ((signature <- Verifier.generateTestSignature "{}" ;;
                Verifier.verifySignature "{}" signature "s3cret") sample_world initial_state)
     = Returned true.
Proof.
  split.
  - apply (proj1 (generateTestSignature_round_trip "{}" unconfigured_world initial_state)).
    reflexivity.
  - apply (proj2 (generateTestSignature_round_trip "{}" sample_world initial_state) "s3cret");
      [reflexivity | discriminate].
Defined.

(** ** More on the outbound calls *)

Lemma await_run_state {A : Type} (outcome : world -> nat -> A) (w : world) (s : state) :
  exists tr,
    await outcome w s = (Returned (outcome w (waits s)), after_wait w s, tr) /\ quiet tr.
Proof.
  unfold await, after_wait.
  destruct (notify_all_run (notifications_during w (waits s)) w
              {| socketModeConnected := socketModeConnected s; waits := S (waits s) |})
    as (tr & E & Q).
  rewrite E. exists tr. split; [reflexivity|exact Q].
Qed.

Lemma sendWebhookMessage_to (url : string) (p : SlackPayload) (w : world) (s : state) :
  exists tr,
    SlackClient.sendWebhookMessage (Some url) p w s
    = (settle (https_request w (waits s) url p), after_wait w s,
       SendWebhookMessage (Some url) p :: tr)
    /\ quiet tr.
Proof.
  unfold SlackClient.sendWebhookMessage, bind, emit.
  destruct (await_run_state (fun w t => https_request w t url p) w s) as (tr & E & Q).
  rewrite E. cbn beta. exists tr. split; [|exact Q].
  destruct (https_request w (waits s) url p) as [code data|msg|msg]; cbn [settle].
  - destruct ((200 <=? code)%Z && (code <? 300)%Z); cbn; now rewrite app_nil_r.
  - cbn. now rewrite app_nil_r.
  - cbn. now rewrite app_nil_r.
Qed.

Lemma sendWebhookMessage_without_url (p : SlackPayload) (w : world) (s : state) :
  SlackClient.sendWebhookMessage None p w s
  = (Threw (JsError ("The " ++ quoted "url"
                       ++ " argument must be of type string. Received undefined")),
     s, [SendWebhookMessage None p]).
Proof. reflexivity. Qed.

Lemma postMessage_run_state (p : SlackPayload) (w : world) (s : state) :
  exists tr,
    App.postMessage p w s
    = (match chat_postMessage w (waits s) p with
       | None => Returned tt
       | Some e => Threw e
       end, after_wait w s, ChatPostMessage p :: tr)
    /\ quiet tr.
Proof.
  unfold App.postMessage, bind, emit.
  destruct (await_run_state (fun w t => chat_postMessage w t p) w s) as (tr & E & Q).
  rewrite E. cbn beta. exists tr. split; [|exact Q].
  destruct (chat_postMessage w (waits s) p); cbn; now rewrite app_nil_r.
Qed.

Lemma settle_returned_iff (o : https_outcome) :
  (exists r, settle o = Returned r)
  <-> exists code data, o = HttpsResponse code data /\ (200 <= code < 300)%Z.
Proof.
  split.
  - intros [r H]. destruct o as [code data|msg|msg]; try discriminate H.
    cbn [settle] in H. destruct ((200 <=? code)%Z && (code <? 300)%Z) eqn:E; [|discriminate H].
    apply andb_true_iff in E as [E1 E2]. exists code, data. split; [reflexivity|lia].
  - intros (code & data & -> & Hc). cbn [settle].
    replace ((200 <=? code)%Z && (code <? 300)%Z) with true; [eauto|].
    symmetry. apply andb_true_iff. split; lia.
Qed.

(** X11.  [sendWebhookMessage] with a URL makes one call; its promise
    resolves exactly when the endpoint answers with a status from 200 to
    299 (with [success], the status and the response body), and for any
    other status it rejects with the status and the body. *)
Theorem sendWebhookMessage_resolves_iff_2xx
        (url : string) (p : SlackPayload) (w : world) (s : state) :
  ((exists r, value_of (SlackClient.sendWebhookMessage (Some url) p w s) = Returned r)
   <-> exists code data,
        https_request w (waits s) url p = HttpsResponse code data /\ (200 <= code < 300)%Z)
  /\ (forall code data,
        https_request w (waits s) url p = HttpsResponse code data ->
        value_of (SlackClient.sendWebhookMessage (Some url) p w s)
        = if (200 <=? code)%Z && (code <? 300)%Z
          then Returned {| SlackClient.success := true; SlackClient.statusCode := code;
                           SlackClient.response := data |}
          else Threw (RejectedStatus code data))
  /\ count is_webhook (events_of (SlackClient.sendWebhookMessage (Some url) p w s)) = 1.
Proof.
  destruct (sendWebhookMessage_to url p w s) as (tr & E & Q). rewrite E.
  unfold value_of, events_of, count. cbn [fst snd filter is_webhook].
  rewrite (quiet_no_webhook tr Q). split; [apply settle_returned_iff|].
  split; [|reflexivity]. intros code data ->. reflexivity.
Qed.

Lemma sendWebhookMessage_resolves_iff_2xx_witness :
  value_of (SlackClient.sendWebhookMessage
              (Some "https://hooks.slack.com/services/T000/B000/XXXX")
              (App.payload_of sample_world sample_message)
              (failing_world (JsError "socket closed") 500) initial_state)
  = Threw (RejectedStatus 500 "internal_error").
Proof.
  apply (proj1 (proj2 (sendWebhookMessage_resolves_iff_2xx
                         "https://hooks.slack.com/services/T000/B000/XXXX"
                         (App.payload_of sample_world sample_message)
                         (failing_world (JsError "socket closed") 500) initial_state))
           500%Z "internal_error").
  reflexivity.
Defined.


(** X12.  Unless an exception is raised while the request is set up, the
    value [sendWebhookMessage] rejects with has no [message] property, so
    it passes the guard [e.message !== 'webhook fallback already used']. *)
Theorem webhook_rejections_carry_no_message
        (url : string) (p : SlackPayload) (w : world) (s : state) (e : thrown) :
  value_of (SlackClient.sendWebhookMessage (Some url) p w s) = Threw e ->
  (forall msg, https_request w (waits s) url p <> HttpsThrows msg) ->
  message_of e = None /\ App.not_fallback_already_used e = true.
Proof.
  destruct (sendWebhookMessage_to url p w s) as (tr & E & Q). rewrite E.
  unfold value_of. cbn [fst]. intros Hthrew Hsetup.
  destruct (https_request w (waits s) url p) as [code data|msg|msg]; cbn [settle] in Hthrew.
  - destruct ((200 <=? code)%Z && (code <? 300)%Z); [discriminate|].
    injection Hthrew as <-. split; reflexivity.
  - injection Hthrew as <-. split; reflexivity.
  - now contradiction (Hsetup msg).
Qed.

Lemma webhook_rejections_carry_no_message_witness :
  message_of (RejectedStatus 500 "internal_error") = None
  /\ App.not_fallback_already_used (RejectedStatus 500 "internal_error") = true.
Proof.
  apply (webhook_rejections_carry_no_message
           "https://hooks.slack.com/services/T000/B000/XXXX"
           (App.payload_of sample_world sample_message)
           (failing_world (JsError "socket closed") 500) initial_state
           (RejectedStatus 500 "internal_error")).
  - reflexivity.
  - intros msg. discriminate.
Defined.


(** ** More on the delivery block *)

Ltac run_call_state :=
  match goal with
  | |- context [SlackClient.sendWebhookMessage (Some ?url) ?p ?w ?s] =>
      let tr := fresh "tr" in
      let E := fresh "E" in
      let Q := fresh "Q" in
      destruct (sendWebhookMessage_to url p w s) as (tr & E & Q);
      rewrite E; clear E
  | |- context [SlackClient.sendWebhookMessage None ?p ?w ?s] =>
      rewrite (sendWebhookMessage_without_url p w s)
  | |- context [App.postMessage ?p ?w ?s] =>
      let tr := fresh "tr" in
      let E := fresh "E" in
      let Q := fresh "Q" in
      destruct (postMessage_run_state p w s) as (tr & E & Q);
      rewrite E; clear E
  end.

Lemma outside_2xx (code : Z) :
  ~ (200 <= code < 300)%Z -> ((200 <=? code)%Z && (code <? 300)%Z) = false.
Proof. intros H. apply andb_false_iff. lia. Qed.

Lemma inside_2xx (code : Z) :
  (200 <= code < 300)%Z -> ((200 <=? code)%Z && (code <? 300)%Z) = true.
Proof. intros H. apply andb_true_iff. lia. Qed.

Lemma url_error_not_reserved :
  App.not_fallback_already_used
    (JsError ("The " ++ quoted "url"
                ++ " argument must be of type string. Received undefined"))
  = true.
Proof. reflexivity. Qed.

(** X13.  Flag on and the persistent session accepts the message: the
    delivery is that one call; the webhook is never invoked, and there is
    one wait. *)
Theorem connected_success_makes_one_call
        (message : RenderedMessage) (w : world) (s : state) :
  socketModeConnected s = true ->
  chat_postMessage w (waits s) (App.payload_of w message) = None ->
  filter is_delivery (events_of (App.deliver message w s))
  = [ChatPostMessage (App.payload_of w message)]
  /\ count is_webhook (events_of (App.deliver message w s)) = 0
  /\ waits (state_of (App.deliver message w s)) = S (waits s).
Proof.
  intros Hflag Hpost. open_deliver. rewrite Hflag. run_call_state. rewrite Hpost.
  repeat split; tidy_trace; reflexivity.
Qed.

Lemma connected_success_makes_one_call_witness :
  filter is_delivery (events_of (App.deliver sample_message sample_world connected_state))
  = [ChatPostMessage (App.payload_of sample_world sample_message)]
  /\ count is_webhook (events_of (App.deliver sample_message sample_world connected_state)) = 0
  /\ waits (state_of (App.deliver sample_message sample_world connected_state))
     = S (waits connected_state).
Proof.
  apply (connected_success_makes_one_call sample_message sample_world connected_state);
    reflexivity.
Defined.

(** X14.  Flag off, webhook URL set and the endpoint answers 2xx: the
    delivery is exactly one webhook call, and one wait. *)
Theorem disconnected_success_single_call
        (message : RenderedMessage) (w : world) (s : state)
        (url : string) (code : Z) (data : string) :
  socketModeConnected s = false ->
  SLACK_WEBHOOK_URL (env w) = Some url ->
  https_request w (waits s) url (App.payload_of w message) = HttpsResponse code data ->
  (200 <= code < 300)%Z ->
  filter is_delivery (events_of (App.deliver message w s))
  = [SendWebhookMessage (Some url) (App.payload_of w message)]
  /\ waits (state_of (App.deliver message w s)) = S (waits s).
Proof.
  intros Hflag Hurl Hreq Hcode. open_deliver. rewrite Hflag, Hurl. run_call_state.
  rewrite Hreq. cbn [settle]. rewrite (inside_2xx code Hcode).
  split; [tidy_trace; reflexivity|reflexivity].
Qed.

Lemma disconnected_success_single_call_witness :
  filter is_delivery (events_of (App.deliver sample_message sample_world initial_state))
  = [SendWebhookMessage (Some "https://hooks.slack.com/services/T000/B000/XXXX")
                        (App.payload_of sample_world sample_message)]
  /\ waits (state_of (App.deliver sample_message sample_world initial_state))
     = S (waits initial_state).
Proof.
  apply (disconnected_success_single_call sample_message sample_world initial_state
           "https://hooks.slack.com/services/T000/B000/XXXX" 200%Z "ok");
    [reflexivity | reflexivity | reflexivity | lia].
Defined.


(** X15.  Flag off, webhook URL set and the first webhook request fails
    (a status outside 2xx, or an error on the request): the webhook is
    called exactly twice, whatever the second call comes to. *)
Theorem disconnected_failure_calls_webhook_twice
        (message : RenderedMessage) (w : world) (s : state) (url : string) :
  socketModeConnected s = false ->
  SLACK_WEBHOOK_URL (env w) = Some url ->
  ((exists code data,
       https_request w (waits s) url (App.payload_of w message) = HttpsResponse code data
       /\ ~ (200 <= code < 300)%Z)
   \/ exists msg,
       https_request w (waits s) url (App.payload_of w message) = HttpsError msg) ->
  filter is_delivery (events_of (App.deliver message w s))
  = [SendWebhookMessage (Some url) (App.payload_of w message);
     SendWebhookMessage (Some url) (App.payload_of w message)]
  /\ waits (state_of (App.deliver message w s)) = S (S (waits s)).
Proof.
  intros Hflag Hurl Hfail. open_deliver. rewrite Hflag, Hurl. run_call_state.
  destruct Hfail as [(code & data & Hreq & Hcode)|(msg & Hreq)]; rewrite Hreq; cbn [settle].
  - rewrite (outside_2xx code Hcode). cbn [App.not_fallback_already_used message_of].
    run_call_state.
    destruct (settle _); (split; [tidy_trace; reflexivity|reflexivity]).
  - cbn [App.not_fallback_already_used message_of]. run_call_state.
    destruct (settle _); (split; [tidy_trace; reflexivity|reflexivity]).
Qed.

Lemma disconnected_failure_calls_webhook_twice_witness :
  filter is_delivery
    (events_of (App.deliver sample_message (failing_world (JsError "socket closed") 503)
                  initial_state))
  = [SendWebhookMessage (Some "https://hooks.slack.com/services/T000/B000/XXXX")
                        (App.payload_of sample_world sample_message);
     SendWebhookMessage (Some "https://hooks.slack.com/services/T000/B000/XXXX")
                        (App.payload_of sample_world sample_message)]
  /\ waits (state_of (App.deliver sample_message (failing_world (JsError "socket closed") 503)
                        initial_state))
     = S (S (waits initial_state)).
Proof.
  apply (disconnected_failure_calls_webhook_twice sample_message
           (failing_world (JsError "socket closed") 503) initial_state
           "https://hooks.slack.com/services/T000/B000/XXXX");
    [reflexivity | reflexivity |].
  left. exists 503%Z, "internal_error". split; [reflexivity|lia].
Defined.


(** X16.  Flag off and SLACK_WEBHOOK_URL not set: [sendWebhookMessage] is
    invoked twice and throws both times before any request is made; the
    delivery logs both failures, returns normally and does not wait. *)
Theorem missing_webhook_url_when_disconnected
        (message : RenderedMessage) (w : world) (s : state) :
  socketModeConnected s = false ->
  SLACK_WEBHOOK_URL (env w) = None ->
  App.deliver message w s
  = (Returned tt, s,
     [Console log "Socket Mode disconnected, using webhook fallback...";
      SendWebhookMessage None (App.payload_of w message);
      Console error "Error posting to Slack:";
      Console log "Trying webhook as backup...";
      SendWebhookMessage None (App.payload_of w message);
      Console error "Both Slack delivery methods failed:"]).
Proof.
  intros Hflag Hurl. open_deliver. rewrite Hflag, Hurl.
  rewrite !sendWebhookMessage_without_url. reflexivity.
Qed.

Lemma missing_webhook_url_when_disconnected_witness :
  App.deliver sample_message without_webhook_url initial_state
  = (Returned tt, initial_state,
     [Console log "Socket Mode disconnected, using webhook fallback...";
      SendWebhookMessage None (App.payload_of without_webhook_url sample_message);
      Console error "Error posting to Slack:";
      Console log "Trying webhook as backup...";
      SendWebhookMessage None (App.payload_of without_webhook_url sample_message);
      Console error "Both Slack delivery methods failed:"]).
Proof.
  apply (missing_webhook_url_when_disconnected sample_message without_webhook_url
           initial_state); reflexivity.
Defined.


(** X17.  The path is chosen once, from the flag at the start: lifecycle
    notifications that arrive while the delivery waits (and flip the flag)
    do not change which calls are made.  Two worlds that agree on the
    environment and on the outcomes of the outbound calls give the same
    calls, whatever notifications arrive in either. *)
Theorem delivery_path_fixed_at_start
        (message : RenderedMessage) (w w' : world) (s : state) :
  env w' = env w ->
  (forall t p, chat_postMessage w' t p = chat_postMessage w t p) ->
  (forall t url p, https_request w' t url p = https_request w t url p) ->
  filter is_delivery (events_of (App.deliver message w' s))
  = filter is_delivery (events_of (App.deliver message w s)).
Proof.
  intros Henv Hpost Hreq.
  assert (Hp : App.payload_of w' message = App.payload_of w message)
    by (unfold App.payload_of; now rewrite Henv).
  open_deliver. rewrite Hp, Henv.
  destruct (socketModeConnected s).
  - do 2 run_call_state. rewrite Hpost.
    destruct (chat_postMessage w (waits s) (App.payload_of w message)) as [e|].
    + destruct (App.not_fallback_already_used e).
      * destruct (SLACK_WEBHOOK_URL (env w)) as [url|].
        -- do 2 run_call_state. cbn [after_wait waits]. rewrite Hreq.
           destruct (settle _); tidy_trace; reflexivity.
        -- rewrite !sendWebhookMessage_without_url. tidy_trace. reflexivity.
      * tidy_trace. reflexivity.
    + tidy_trace. reflexivity.
  - destruct (SLACK_WEBHOOK_URL (env w)) as [url|].
    + do 2 run_call_state. rewrite Hreq.
      destruct (settle (https_request w (waits s) url (App.payload_of w message))) as [r|e].
      * tidy_trace. reflexivity.
      * destruct (App.not_fallback_already_used e).
        -- do 2 run_call_state. cbn [after_wait waits]. rewrite Hreq.
           destruct (settle _); tidy_trace; reflexivity.
        -- tidy_trace. reflexivity.
    + rewrite !sendWebhookMessage_without_url, url_error_not_reserved.
      rewrite !sendWebhookMessage_without_url. tidy_trace. reflexivity.
Qed.

Lemma delivery_path_fixed_at_start_witness :
  filter is_delivery
    (events_of (App.deliver sample_message
                  (restless (failing_world (JsError "socket closed") 500)) connected_state))
  = filter is_delivery
      (events_of (App.deliver sample_message (failing_world (JsError "socket closed") 500)
                    connected_state)).
Proof.
  apply (delivery_path_fixed_at_start sample_message
           (failing_world (JsError "socket closed") 500)
           (restless (failing_world (JsError "socket closed") 500)) connected_state).
  - reflexivity.
  - intros t p. reflexivity.
  - intros t url p. reflexivity.
Defined.


(** X18.  Every outbound call of a delivery, first attempt or fallback,
    carries the same payload: the configured channel and the rendered
    message's text, blocks and attachments. *)
Theorem every_attempt_sends_the_same_payload
        (message : RenderedMessage) (w : world) (s : state) :
  Forall (fun e => payload_sent e = Some (App.payload_of w message))
         (filter is_delivery (events_of (App.deliver message w s))).
Proof.
  destruct (socketModeConnected s) eqn:Hflag.
  - open_deliver. rewrite Hflag. run_call.
    destruct (chat_postMessage w (waits s) (App.payload_of w message)) as [e|].
    + destruct (App.not_fallback_already_used e); [run_call; destruct r|];
        tidy_trace; repeat constructor.
    + tidy_trace; repeat constructor.
  - deliver_cases Hflag; tidy_trace; repeat constructor.
Qed.

(** ** More on the route handler *)

Lemma after_wait_undisturbed (w : world) (s : state) :
  undisturbed w -> socketModeConnected (after_wait w s) = socketModeConnected s.
Proof. intros H. unfold after_wait. now rewrite H. Qed.

Lemma deliver_keeps_flag (message : RenderedMessage) (w : world) (s : state) :
  undisturbed w ->
  socketModeConnected (state_of (App.deliver message w s)) = socketModeConnected s.
Proof.
  intros Hquiet. open_deliver.
  destruct (socketModeConnected s) eqn:Hflag.
  - run_call_state.
    destruct (chat_postMessage w (waits s) (App.payload_of w message)) as [e|].
    + destruct (App.not_fallback_already_used e).
      * destruct (SLACK_WEBHOOK_URL (env w)) as [url|].
        -- run_call_state. destruct (settle _); unfold state_of; cbn [fst snd];
             now rewrite !after_wait_undisturbed.
        -- rewrite sendWebhookMessage_without_url. unfold state_of; cbn [fst snd].
           now rewrite !after_wait_undisturbed.
      * unfold state_of; cbn [fst snd]. now rewrite !after_wait_undisturbed.
    + unfold state_of; cbn [fst snd]. now rewrite !after_wait_undisturbed.
  - destruct (SLACK_WEBHOOK_URL (env w)) as [url|].
    + run_call_state.
      destruct (settle (https_request w (waits s) url (App.payload_of w message))) as [r|e].
      * unfold state_of; cbn [fst snd]. now rewrite !after_wait_undisturbed.
      * destruct (App.not_fallback_already_used e).
        -- run_call_state. destruct (settle _); unfold state_of; cbn [fst snd];
             now rewrite !after_wait_undisturbed.
        -- unfold state_of; cbn [fst snd]. now rewrite !after_wait_undisturbed.
    + rewrite sendWebhookMessage_without_url, url_error_not_reserved.
      rewrite sendWebhookMessage_without_url. unfold state_of; cbn [fst snd]. exact Hflag.
Qed.

Lemma webhookHandler_keeps_flag (req : request) (w : world) (s : state) :
  undisturbed w ->
  socketModeConnected (state_of (App.webhookHandler req w s)) = socketModeConnected s.
Proof.
  intros Hquiet.
  destruct (cannot_convert (property "eventType" (body req))) eqn:Hconvert;
    [now rewrite webhookHandler_unprintable|].
  unfold App.webhookHandler, App.interpolate. rewrite Hconvert.
  cbv [bind try_catch ask console respond emit ret throw].
  destruct (formatSlackMessage w _ _ _) as [e|message]; [reflexivity|].
  pose proof (deliver_keeps_flag message w s Hquiet) as Hflag.
  pose proof (deliver_never_throws message w s) as Hv.
  destruct (App.deliver message w s) as [[r s1] tr].
  unfold value_of in Hv. unfold state_of in Hflag. cbn [fst snd] in Hv, Hflag. subst r.
  exact Hflag.
Qed.

(** X19.  Handling a POST never writes the connectivity flag: when no
    lifecycle notification arrives meanwhile, the flag after the route has
    run is the flag before, whatever the request and the channels do. *)
Theorem route_never_writes_the_flag (req : request) (w : world) (s : state) :
  undisturbed w ->
  socketModeConnected (state_of (App.postWebhook req w s)) = socketModeConnected s.
Proof.
  intros Hquiet. unfold App.postWebhook.
  destruct (truthy (MCP_WEBHOOK_SIGNING_SECRET (env w))) as [secret|] eqn:Hsec;
    [|now rewrite middleware_without_secret].
  destruct (truthy (req_get req "MCP-Signature")) as [header|] eqn:Hhdr;
    [|now rewrite (middleware_without_header _ _ _ _ secret)].
  destruct (truthy (rawBody req)) as [raw|] eqn:Hraw;
    [|now rewrite (middleware_without_rawBody _ _ _ _ secret header)].
  destruct (middleware_checks_signature req (App.webhookHandler req) w s secret header raw
              Hsec Hhdr Hraw) as (verdict & checks & E & _ & _ & Hrun).
  rewrite Hrun. destruct verdict; [|reflexivity].
  pose proof (webhookHandler_keeps_flag req w s Hquiet) as Hflag.
  destruct (App.webhookHandler req w s) as [[r s1] tr]. exact Hflag.
Qed.

Lemma route_never_writes_the_flag_witness :
  socketModeConnected
    (state_of (App.postWebhook signed_request (failing_world (JsError "socket closed") 500)
                 connected_state))
  = socketModeConnected connected_state.
Proof.
  apply (route_never_writes_the_flag signed_request
           (failing_world (JsError "socket closed") 500) connected_state).
  intros t. reflexivity.
Defined.


(** X20.  When the event type can be converted to text and
    [formatSlackMessage] throws, the handler has already answered 200; it
    logs the error, makes no outbound call, leaves the state alone and
    returns normally. *)
Theorem render_failure_is_logged_after_the_acknowledgment
        (req : request) (w : world) (s : state) (e : thrown) :
  cannot_convert (property "eventType" (body req)) = false ->
  formatSlackMessage w (property "eventType" (body req))
                     (property "eventDateTime" (body req))
                     (property "eventData" (body req)) = inl e ->
  App.webhookHandler req w s
  = (Returned tt, s,
     [Console log "Received MCP webhook: ${eventType}";
      Respond 200 "Webhook received";
      Console error "Error processing webhook:"]).
Proof.
  intros Hconvert Hrender. unfold App.webhookHandler, App.interpolate. rewrite Hconvert.
  cbv [bind try_catch ask console respond emit ret throw]. now rewrite Hrender.
Qed.

Lemma render_failure_is_logged_after_the_acknowledgment_witness :
  App.webhookHandler signed_request unrenderable_world connected_state
  = (Returned tt, connected_state,
     [Console log "Received MCP webhook: ${eventType}";
      Respond 200 "Webhook received";
      Console error "Error processing webhook:"]).
Proof.
  apply (render_failure_is_logged_after_the_acknowledgment signed_request unrenderable_world
           connected_state
           (JsError "Cannot read properties of undefined (reading 'legalName')"));
    reflexivity.
Defined.


(** X21.  Whatever the renderer and the two channels do, the handler
    returns normally and makes at most one persistent-session call and at
    most two outbound calls.  Its only response is 200 'Webhook received',
    written when the event type can be converted to text; when it cannot,
    the handler writes no response and makes no outbound call. *)
Theorem handler_always_acknowledges_and_returns (req : request) (w : world) (s : state) :
  value_of (App.webhookHandler req w s) = Returned tt
  /\ filter is_response (events_of (App.webhookHandler req w s))
     = (if cannot_convert (property "eventType" (body req)) then []
        else [Respond 200 "Webhook received"])
  /\ (cannot_convert (property "eventType" (body req)) = true ->
      filter is_delivery (events_of (App.webhookHandler req w s)) = [])
  /\ count is_postMessage (events_of (App.webhookHandler req w s)) <= 1
  /\ count is_delivery (events_of (App.webhookHandler req w s)) <= 2.
Proof.
  destruct (cannot_convert (property "eventType" (body req))) eqn:Hconvert.
  { rewrite (webhookHandler_unprintable req w s Hconvert).
    repeat split; cbn; lia. }
  unfold App.webhookHandler, App.interpolate. rewrite Hconvert.
  cbv [bind try_catch ask console respond emit ret throw].
  destruct (formatSlackMessage w _ _ _) as [e|message].
  - repeat split; try discriminate; cbn; lia.
  - pose proof (deliver_never_throws message w s) as Hv.
    pose proof (deliver_no_response message w s) as Hr.
    pose proof (deliver_call_bounds message w s) as [Hp Hd].
    destruct (App.deliver message w s) as [[r s1] tr].
    unfold value_of in Hv. unfold events_of, count in *. cbn [fst snd] in *. subst r.
    cbn [snd app filter is_response is_postMessage is_delivery is_webhook orb].
    rewrite Hr. repeat split; try discriminate; assumption.
Qed.

(** ** The legacy signature helper *)

Lemma utf8_length (s : string) : List.length (utf8 s) = String.length s.
Proof.
  unfold utf8, list_byte_of_string. rewrite length_map.
  induction s as [|c s IH]; [reflexivity|].
  cbn [list_ascii_of_string List.length String.length]. now rewrite IH.
Qed.

Lemma utf8_injective (a b : string) : utf8 a = utf8 b -> a = b.
Proof.
  intros H. rewrite <- (string_of_list_byte_of_string a), <- (string_of_list_byte_of_string b).
  unfold utf8 in H. now rewrite H.
Qed.

Lemma tagged_length (x : string) : String.length ("sha256=" ++ x) = 7 + String.length x.
Proof. reflexivity. Qed.

Lemma expected_signature_length (payload secret : string) :
  String.length ("sha256=" ++ Hex.encode (Crypto.hmac_sha256 (utf8 secret) (utf8 payload))) = 71.
Proof. now rewrite tagged_length, encode_length, hmac_sha256_length. Qed.

Lemma legacy_verifySignature_run (payload signature secret : string) (w : world) (s : state) :
  payload <> "" -> signature <> "" -> secret <> "" ->
  LegacySignature.verifySignature payload signature secret w s
  = let expected :=
      "sha256=" ++ Hex.encode (Crypto.hmac_sha256 (utf8 secret) (utf8 payload)) in
    (if Nat.eqb (String.length signature) 71
     then Returned (buffer_eqb (utf8 signature) (utf8 expected))
     else Threw (JsError "Input buffers must have the same byte length"),
     s, [TimingSafeEqual (utf8 signature) (utf8 expected)]).
Proof.
  intros Hp Hg Hs. unfold LegacySignature.verifySignature.
  rewrite (eqb_empty_false _ Hp), (eqb_empty_false _ Hg), (eqb_empty_false _ Hs).
  cbn [orb]. cbv zeta. unfold timingSafeEqual, bind, emit.
  rewrite !utf8_length, expected_signature_length.
  destruct (Nat.eqb (String.length signature) 71); reflexivity.
Qed.

(** X22.  The legacy [verifySignature] has no length check: for non-empty
    arguments it throws a [RangeError] whenever the header is not exactly
    71 bytes long (the length of 'sha256=' and 64 hex digits). *)
Theorem legacy_verifySignature_throws_unless_71_bytes
        (payload signature secret : string) (w : world) (s : state) :
  payload <> "" -> signature <> "" -> secret <> "" ->
  String.length signature <> 71 ->
  value_of (LegacySignature.verifySignature payload signature secret w s)
  = Threw (JsError "Input buffers must have the same byte length").
Proof.
  intros Hp Hg Hs Hlen. rewrite legacy_verifySignature_run by assumption. cbv zeta.
  apply Nat.eqb_neq in Hlen. now rewrite Hlen.
Qed.

Lemma legacy_verifySignature_throws_unless_71_bytes_witness :
  value_of (LegacySignature.verifySignature "{}" "sha256=abcd" "s3cret"
              sample_world initial_state)
  = Threw (JsError "Input buffers must have the same byte length").
Proof.
  apply (legacy_verifySignature_throws_unless_71_bytes "{}" "sha256=abcd" "s3cret"
           sample_world initial_state); [discriminate | discriminate | discriminate |].
  cbn. lia.
Defined.


(** X23.  For non-empty arguments the legacy [verifySignature] returns
    [true] exactly when the header is, character for character, 'sha256='
    followed by the lower-case hex digest. *)
Theorem legacy_verifySignature_accepts_iff
        (payload signature secret : string) (w : world) (s : state) :
  payload <> "" -> signature <> "" -> secret <> "" ->
  value_of (LegacySignature.verifySignature payload signature secret w s) = Returned true
  <-> signature = "sha256=" ++ Hex.encode (Crypto.hmac_sha256 (utf8 secret) (utf8 payload)).
Proof.
  intros Hp Hg Hs. rewrite legacy_verifySignature_run by assumption. cbv zeta.
  unfold value_of. cbn [fst]. split.
  - destruct (Nat.eqb (String.length signature) 71); [|discriminate].
    intros H. apply Returned_inj in H. apply buffer_eqb_eq in H. now apply utf8_injective.
  - intros H. rewrite H at 1. rewrite expected_signature_length. cbn [Nat.eqb].
    rewrite <- H. now rewrite buffer_eqb_refl.
Qed.

Lemma legacy_verifySignature_accepts_iff_witness :
  value_of (LegacySignature.verifySignature "{}"
              "sha256=adbde1ce40c89c14215687d5d762a47df6dfaefcfad61e2e86718ffc8498571b"
              "s3cret" sample_world initial_state) = Returned true
  <-> "sha256=adbde1ce40c89c14215687d5d762a47df6dfaefcfad61e2e86718ffc8498571b"
      = "sha256=" ++ Hex.encode (Crypto.hmac_sha256 (utf8 "s3cret") (utf8 "{}")).
Proof.
  apply (legacy_verifySignature_accepts_iff "{}"
           "sha256=adbde1ce40c89c14215687d5d762a47df6dfaefcfad61e2e86718ffc8498571b"
           "s3cret" sample_world initial_state); discriminate.
Defined.


(** X24.  The two modules agree on [generateSignature] for a non-empty
    secret, and every header the legacy [verifySignature] accepts is
    accepted by the one of [utils/verifier.js]. *)
Theorem verifier_accepts_what_legacy_accepts
        (payload signature secret : string) (w : world) (s : state) :
  (secret <> "" ->
   LegacySignature.generateSignature payload secret w s
   = Verifier.generateSignature payload secret w s)
  /\ (value_of (LegacySignature.verifySignature payload signature secret w s) = Returned true ->
      value_of (Verifier.verifySignature payload signature secret w s) = Returned true).
Proof.
  split.
  - intros Hs. now rewrite generateSignature_run.
  - intros Hlegacy.
    destruct (string_dec payload "") as [->|Hp]; [discriminate Hlegacy|].
    destruct (string_dec signature "") as [->|Hg].
    { unfold LegacySignature.verifySignature in Hlegacy.
      rewrite (eqb_empty_false _ Hp) in Hlegacy. discriminate Hlegacy. }
    destruct (string_dec secret "") as [->|Hs].
    { unfold LegacySignature.verifySignature in Hlegacy.
      rewrite (eqb_empty_false _ Hp), (eqb_empty_false _ Hg) in Hlegacy.
      discriminate Hlegacy. }
    rewrite legacy_verifySignature_run in Hlegacy by assumption. cbv zeta in Hlegacy.
    unfold value_of in Hlegacy. cbn [fst] in Hlegacy.
    destruct (Nat.eqb (String.length signature) 71); [|discriminate].
    apply Returned_inj in Hlegacy. apply buffer_eqb_eq, utf8_injective in Hlegacy.
    rewrite verifySignature_accepts; try assumption; [reflexivity|].
    rewrite Hlegacy. now rewrite without_tag_tagged, decode_encode.
Qed.

Lemma verifier_accepts_what_legacy_accepts_witness :
  LegacySignature.generateSignature "{}" "s3cret" sample_world initial_state
  = Verifier.generateSignature "{}" "s3cret" sample_world initial_state
  /\ value_of (Verifier.verifySignature "{}"
                 "sha256=adbde1ce40c89c14215687d5d762a47df6dfaefcfad61e2e86718ffc8498571b"
                 "s3cret" sample_world initial_state) = Returned true.
Proof.
  split.
  - apply (proj1 (verifier_accepts_what_legacy_accepts "{}" "" "s3cret"
                    sample_world initial_state)). discriminate.
  - apply (proj2 (verifier_accepts_what_legacy_accepts "{}"
                    "sha256=adbde1ce40c89c14215687d5d762a47df6dfaefcfad61e2e86718ffc8498571b"
                    "s3cret" sample_world initial_state)).
    vm_compute. reflexivity.
Defined.


(** ** The health endpoints *)

(** X25.  After any sequence of lifecycle notifications from process
    start, both health endpoints answer 200 and report the value set by the
    last notification ('connected' / 'true' after [authenticated] or the
    completion of start, 'disconnected' / 'false' otherwise and at first),
    and answering, on either endpoint, does not change the flag. *)
Theorem health_reports_the_last_notification
        (ns : list lifecycle) (timestamp : string) (w : world) :
  let connected := last (map marks_connected ns) false in
  filter is_response (events_of ((notify_all ns ;; Health.health timestamp) w initial_state))
  = [Respond 200
       ("{" ++ quoted "status" ++ ":" ++ quoted "ok" ++ ","
            ++ quoted "socketMode" ++ ":"
            ++ quoted (if connected then "connected" else "disconnected") ++ ","
            ++ quoted "timestamp" ++ ":" ++ quoted timestamp ++ "}")]
  /\ filter is_response (events_of ((notify_all ns ;; Health.customRoute) w initial_state))
     = [Respond 200 ("MCP Alerts running - Socket Mode: "
                       ++ (if connected then "true" else "false"))]
  /\ socketModeConnected (state_of ((notify_all ns ;; Health.health timestamp) w initial_state))
     = connected
  /\ socketModeConnected (state_of ((notify_all ns ;; Health.customRoute) w initial_state))
     = connected.
Proof.
  cbv zeta. unfold bind.
  destruct (notify_all_run ns w initial_state) as (tr & E & Q). rewrite E.
  unfold Health.health, Health.customRoute, bind, read_socketModeConnected, respond, emit.
  cbn [socketModeConnected initial_state app]. unfold events_of, state_of. cbn [fst snd].
  rewrite !filter_app, (quiet_no_response tr Q). repeat split.
Qed.

(** ** The renderer *)

Section RendererFacts.

Variable number_text : Z -> string.
Variable toLocaleString : option json -> string.

Import Formatters.

Lemma member_present (name : string) (v : option json) :
  nullish v = false -> member name v = inr (optional_member name v).
Proof. destruct v as [[]|]; (discriminate || reflexivity). Qed.

Lemma member_missing (name : string) (v : option json) :
  nullish v = true -> exists e, member name v = inl e.
Proof. destruct v as [[]|]; try discriminate; intros _; eexists; reflexivity. Qed.

Lemma truthy_present (v : option json) : is_truthy v = true -> nullish v = false.
Proof. destruct v as [[]|]; (discriminate || reflexivity). Qed.

Lemma optional_member_parent (name : string) (v : option json) :
  nullish (optional_member name v) = false -> nullish v = false.
Proof. destruct v as [[]|]; (discriminate || reflexivity). Qed.

Lemma carrier_field_present (name : string) (eventData : option json) :
  nullish (optional_member "carrier" eventData) = false ->
  carrier_field name eventData
  = inr (optional_member name (optional_member "carrier" eventData)).
Proof.
  intros Hc. unfold carrier_field.
  rewrite (member_present _ _ (optional_member_parent _ _ Hc)). cbn [and_then].
  now rewrite member_present.
Qed.

Lemma carrier_field_missing (name : string) (eventData : option json) :
  nullish (optional_member "carrier" eventData) = true ->
  exists e, carrier_field name eventData = inl e.
Proof.
  intros Hc. unfold carrier_field.
  destruct (nullish eventData) eqn:Hed.
  - destruct (member_missing "carrier" _ Hed) as [e ->]. now exists e.
  - rewrite (member_present _ _ Hed). cbn [and_then]. now apply member_missing.
Qed.

(** A value that converts gives its text. *)
Lemma template_convertible (v : option json) :
  cannot_convert v = false -> template number_text v = inr (text_of number_text v).
Proof. intros H. unfold template. now rewrite H. Qed.

Lemma date_text_convertible (v : option json) :
  cannot_convert v = false -> date_text toLocaleString v = inr (toLocaleString v).
Proof. intros H. unfold date_text. now rewrite H. Qed.

(** A conversion can only throw on a value that mentions [toString]. *)
Lemma throws_mentions (j : json) :
  throws_on_ToString j = true -> mentions_toString j = true.
Proof.
  revert j. fix IH 1. intros [| b | z | s | items | fields]; cbn; try discriminate.
  - induction items as [|x items IHitems]; [discriminate|].
    intros H. apply orb_true_iff in H as [H|H]; apply orb_true_iff.
    + left. now apply IH.
    + right. now apply IHitems.
  - destruct (lookup_field "toString" fields); [reflexivity|discriminate].
Qed.

Lemma plain_convertible (v : option json) : plain v = true -> cannot_convert v = false.
Proof.
  destruct v as [j|]; [|reflexivity]. cbn. intros H.
  destruct (throws_on_ToString j) eqn:E; [|reflexivity].
  now rewrite (throws_mentions j E) in H.
Qed.

Lemma plain_lookup (name : string) (fields : list (string * json)) :
  (fix some (fs : list (string * json)) : bool :=
     match fs with
     | [] => false
     | (_, v) :: rest => mentions_toString v || some rest
     end) fields = false ->
  plain (lookup_field name fields) = true.
Proof.
  induction fields as [|[k v] fields IH]; [reflexivity|].
  intros H. apply orb_false_iff in H as [Hv Hrest].
  cbn [lookup_field]. specialize (IH Hrest).
  destruct (lookup_field name fields); [exact IH|].
  destruct (String.eqb k name); [|reflexivity]. cbn. now rewrite Hv.
Qed.

Lemma plain_optional_member (name : string) (v : option json) :
  plain v = true -> plain (optional_member name v) = true.
Proof.
  destruct v as [[| b | z | s | items | fields]|]; try reflexivity.
  cbn [plain optional_member property mentions_toString]. intros H.
  apply negb_true_iff, orb_false_iff in H as [_ H]. now apply plain_lookup.
Qed.

Lemma plain_or_else (v : option json) (literal : string) :
  plain v = true -> plain (or_else v literal) = true.
Proof. intros H. unfold or_else. now destruct (is_truthy v). Qed.


Ltac open_formatters :=
  unfold formatPacketCompletedMessage, formatIncidentReportCreatedMessage,
    formatIncidentReportUpdatedMessage, formatIncidentReportRetractedMessage,
    formatVinVerificationCompletedMessage, formatUserVerificationCompletedMessage,
    formatDefaultMessage, carrier_summary, carrier_text, incident_date_field,
    incident_url, field;
  cbv zeta.

Ltac choose_formatter eventType :=
  unfold formatSlackMessage; cbv zeta;
  repeat match goal with
         | |- context [if is_string eventType ?name then _ else _] =>
             destruct (is_string eventType name) eqn:?
         end.

(** The call the rendering has reached: the innermost first argument of
    the outermost [and_then]. *)
Ltac head_of t :=
  lazymatch t with
  | and_then ?m _ => head_of m
  | _ => t
  end.

(** One step of the renderer: a read whose object is known to be there, a
    branch on a test, or a conversion, which [convert] deals with. *)
Ltac render_step convert :=
  lazymatch goal with
  | |- context [and_then ?m _] =>
      let h := head_of m in
      lazymatch h with
      | member ?name ?v => rewrite (member_present name v) by assumption
      | carrier_field ?name ?v => rewrite (carrier_field_present name v) by assumption
      | if is_truthy ?v then _ else _ =>
          let H := fresh "Htruthy" in
          destruct (is_truthy v) eqn:H;
          [ pose proof (truthy_present _ H);
            try match type of H with
                | is_truthy (optional_member ?name ?parent) = true =>
                    pose proof (optional_member_parent name parent (truthy_present _ H))
                end
          | ]
      | if is_string ?v ?literal then _ else _ => destruct (is_string v literal) eqn:?
      | template number_text ?v => convert h
      | date_text toLocaleString ?v => convert h
      end
  end;
  cbn [and_then].

Lemma carrier_text_missing (name : string) (eventData : option json) :
  nullish (optional_member "carrier" eventData) = true ->
  exists e, carrier_text number_text name eventData = inl e.
Proof.
  intros Hc. unfold carrier_text.
  destruct (carrier_field_missing name eventData Hc) as [e ->]. now exists e.
Qed.

Lemma formatSlackMessage_throws_when_missing
      (eventType eventDateTime eventData : option json) :
  nullish (optional_member "carrier" eventData)
  || nullish (optional_member "customer" eventData) = true ->
  exists e,
    formatSlackMessage number_text toLocaleString eventType eventDateTime eventData = inl e.
Proof.
  intros Hmissing. unfold formatSlackMessage.
  destruct (date_text toLocaleString eventDateTime) as [e|formattedDate];
    [now exists e|]. cbn [and_then].
  destruct (nullish (optional_member "carrier" eventData)) eqn:Hcar.
  - destruct (carrier_text_missing "legalName" eventData Hcar) as [e ->]. now exists e.
  - cbn [orb] in Hmissing.
    pose proof (optional_member_parent _ _ Hcar) as Hed.
    destruct (member_missing "companyName" _ Hmissing) as [e He].
    unfold carrier_text, field.
    repeat render_step ltac:(fun h => destruct h; [eexists; reflexivity|]).
    all: rewrite He; now exists e.
Qed.


Lemma rendered_has_carrier_and_customer
      (eventType eventDateTime eventData : option json) (m : RenderedMessage) :
  formatSlackMessage number_text toLocaleString eventType eventDateTime eventData = inr m ->
  nullish (optional_member "carrier" eventData) = false
  /\ nullish (optional_member "customer" eventData) = false.
Proof.
  intros Hm. apply orb_false_iff.
  destruct (nullish (optional_member "carrier" eventData)
            || nullish (optional_member "customer" eventData)) eqn:H; [|reflexivity].
  destruct (formatSlackMessage_throws_when_missing eventType eventDateTime eventData H)
    as [e He].
  rewrite He in Hm. discriminate Hm.
Qed.

Ltac wrong_case :=
  match goal with
  | H : is_string _ _ = _ |- _ => vm_compute in H; discriminate H
  | H : is_string ?v ?name = true, H' : is_string ?v ?name = false |- _ =>
      rewrite H in H'; discriminate H'
  end.

(** Runs the renderer to its end when a message is known to come out: a
    conversion that throws contradicts that. *)
Ltac render_returned :=
  open_formatters;
  repeat render_step
         ltac:(fun h =>
                 destruct h eqn:?;
                 [cbn [and_then]; intros Himpossible; discriminate Himpossible|]).

Ltac solve_plain :=
  apply plain_convertible;
  repeat first [ assumption | apply plain_or_else | apply plain_optional_member ].

(** Runs the renderer to its end on plain values: every conversion gives a
    text. *)
Ltac render_plain :=
  open_formatters;
  repeat render_step
         ltac:(fun h =>
                 lazymatch h with
                 | template number_text ?v =>
                     rewrite (template_convertible v) by solve_plain
                 | date_text toLocaleString ?v =>
                     rewrite (date_text_convertible v) by solve_plain
                 end).

(** X26.  [formatSlackMessage] throws whenever the event data has no
    carrier or no customer ([undefined] or [null], which includes event
    data that is itself missing).  It returns a message whenever both are
    there and no object inside the event type, the event date or the event
    data has a key [toString], the one thing on which a conversion to text
    or to a date throws.  Every message it returns, whatever the event type
    and the other fields, has one attachment that has a colour and no
    blocks, and six to eight blocks of which the second is the divider. *)
Theorem formatSlackMessage_needs_carrier_and_customer
        (eventType eventDateTime eventData : option json) :
  (nullish (optional_member "carrier" eventData)
   || nullish (optional_member "customer" eventData) = true ->
   exists e,
     formatSlackMessage number_text toLocaleString eventType eventDateTime eventData = inl e)
  /\ (forall m,
        formatSlackMessage number_text toLocaleString eventType eventDateTime eventData = inr m ->
        (exists color, attachments m = [attachment color])
        /\ 6 <= List.length (blocks m) <= 8
        /\ nth_error (blocks m) 1 = Some divider)
  /\ (nullish (optional_member "carrier" eventData)
      || nullish (optional_member "customer" eventData) = false ->
      plain eventType = true -> plain eventDateTime = true -> plain eventData = true ->
      exists m,
        formatSlackMessage number_text toLocaleString eventType eventDateTime eventData = inr m).
Proof.
  split; [apply formatSlackMessage_throws_when_missing|]. split.
  - intros m Hm.
    destruct (rendered_has_carrier_and_customer _ _ _ _ Hm) as [Hcar Hcus].
    pose proof (optional_member_parent _ _ Hcar) as Hed.
    revert Hm.
    choose_formatter eventType; render_returned;
      intros [= <-]; (split; [eexists; reflexivity|]);
      (split; [cbn; lia|reflexivity]).
  - intros Hpresent HeventType HeventDateTime HeventData.
    apply orb_false_iff in Hpresent as [Hcar Hcus].
    pose proof (optional_member_parent _ _ Hcar) as Hed.
    choose_formatter eventType; render_plain; eexists; reflexivity.
Qed.


Lemma template_text (v : option json) (text : string) :
  template number_text v = inr text -> text = text_of number_text v.
Proof. unfold template. destruct (cannot_convert v); [discriminate|]. now intros [= <-]. Qed.

(** X27.  An event type that is not one of [SUPPORTED_EVENTS] (or no event
    type at all) is not rejected: the message gets the default layout, six
    blocks headed 'MCP Event: ' and the event type as text, and the purple
    attachment.  The supported types never get that attachment. *)
Theorem other_event_types_get_the_default_layout
        (eventType eventDateTime eventData : option json) (m : RenderedMessage) :
  formatSlackMessage number_text toLocaleString eventType eventDateTime eventData = inr m ->
  (supported eventType = false ->
   template number_text eventType = inr (text_of number_text eventType)
   /\ hd_error (blocks m)
      = Some (header_block ("📢 MCP Event: " ++ text_of number_text eventType))
   /\ List.length (blocks m) = 6
   /\ attachments m = [attachment "#9B59B6"])
  /\ (supported eventType = true -> attachments m <> [attachment "#9B59B6"]).
Proof.
  intros Hm.
  destruct (rendered_has_carrier_and_customer _ _ _ _ Hm) as [Hcar Hcus].
  pose proof (optional_member_parent _ _ Hcar) as Hed.
  revert Hm. unfold supported, SUPPORTED_EVENTS. cbn [existsb].
  choose_formatter eventType; render_returned;
    intros [= <-]; cbn [orb blocks attachments hd_error List.length];
    (split; [intros Hno; try discriminate Hno;
             match goal with
             | H : template number_text eventType = inr ?text |- _ =>
                 pose proof (template_text _ _ H); subst text; repeat split; exact H
             end
            |intros Hyes; try discriminate Hyes; unfold attachment;
             repeat match goal with
                    | |- context [if ?b then _ else _] => destruct b
                    end; discriminate]).
Qed.

(** X28.  For a VIN verification event the location section is there
    exactly when [imageUploadedGeolocation] is truthy (eight blocks instead
    of seven), and the VIN section has a third field, the other DOT number,
    exactly when the status is the string 'VINBelongsToAnotherCarrier'. *)
Theorem vin_message_layout
        (eventDateTime eventData : option json) (m : RenderedMessage) :
  let detail := optional_member "vinVerificationDetail" eventData in
  formatSlackMessage number_text toLocaleString
                     (Some (JString "carrier.vin_verification.completed"))
                     eventDateTime eventData = inr m ->
  List.length (blocks m)
  = (if is_truthy (optional_member "imageUploadedGeolocation" detail) then 8 else 7)
  /\ (exists fields,
        nth_error (blocks m) 3 = Some (section_block fields)
        /\ List.length fields
           = if is_string (optional_member "vinVerificationStatus" detail)
                          "VINBelongsToAnotherCarrier"
             then 3 else 2)
  /\ attachments m = [attachment "#2EB67D"].
Proof.
  cbv zeta. intros Hm.
  destruct (rendered_has_carrier_and_customer _ _ _ _ Hm) as [Hcar Hcus].
  pose proof (optional_member_parent _ _ Hcar) as Hed.
  revert Hm.
  choose_formatter (Some (JString "carrier.vin_verification.completed"));
    try wrong_case.
  render_returned;
    intros [= <-]; cbn [blocks attachments app List.length nth_error];
    (split; [reflexivity|]); (split; [|reflexivity]);
    eexists; (split; [reflexivity|]); reflexivity.
Qed.

(** X29.  For a user verification event the attachment is red when the
    verification status is the string 'Denied', yellow when it is
    'FollowUp' or 'Pending', and green for anything else, a missing status
    included; the message always has eight blocks. *)
Theorem user_verification_colour
        (eventDateTime eventData : option json) (m : RenderedMessage) :
  let status :=
    optional_member "verificationStatus"
                    (optional_member "userVerificationDetail" eventData) in
  formatSlackMessage number_text toLocaleString
                     (Some (JString "carrier.user_verification.completed"))
                     eventDateTime eventData = inr m ->
  attachments m
  = [attachment (if is_string status "Denied" then "#E01E5A"
                 else if is_string status "FollowUp" || is_string status "Pending"
                      then "#ECB22E"
                      else "#2EB67D")]
  /\ List.length (blocks m) = 8.
Proof.
  cbv zeta. intros Hm.
  destruct (rendered_has_carrier_and_customer _ _ _ _ Hm) as [Hcar Hcus].
  pose proof (optional_member_parent _ _ Hcar) as Hed.
  revert Hm.
  choose_formatter (Some (JString "carrier.user_verification.completed"));
    try wrong_case.
  render_returned; intros [= <-]; split; reflexivity.
Qed.

End RendererFacts.

(** X30.  With this renderer in place, an event without carrier data is
    never delivered: the handler answers 200 (unless the event type cannot
    be converted to text, when it answers nothing), logs the error, makes
    no outbound call and returns normally. *)
Theorem event_without_carrier_is_acknowledged_not_delivered
        (number_text : Z -> string) (toLocaleString : option json -> string)
        (req : request) (w : world) (s : state) :
  formatSlackMessage w = Formatters.formatSlackMessage number_text toLocaleString ->
  Formatters.nullish
    (Formatters.optional_member "carrier" (property "eventData" (body req))) = true ->
  App.webhookHandler req w s
  = (Returned tt, s,
     if cannot_convert (property "eventType" (body req))
     then [Console error "Error processing webhook:"]
     else [Console log "Received MCP webhook: ${eventType}";
           Respond 200 "Webhook received";
           Console error "Error processing webhook:"]).
Proof.
  intros Hw Hcar.
  destruct (cannot_convert (property "eventType" (body req))) eqn:Hconvert;
    [now apply webhookHandler_unprintable|].
  destruct (formatSlackMessage_throws_when_missing number_text toLocaleString
              (property "eventType" (body req)) (property "eventDateTime" (body req))
              (property "eventData" (body req))) as [e He];
    [now rewrite Hcar|].
  unfold App.webhookHandler, App.interpolate. rewrite Hconvert.
  cbv [bind try_catch ask console respond emit ret throw]. rewrite Hw, He. reflexivity.
Qed.

Lemma formatSlackMessage_needs_carrier_and_customer_witness :
  (exists e,
      Formatters.formatSlackMessage sample_number_text sample_toLocaleString
        (Some (JString "carrier.packet.completed")) None
        (Some (JObject [("customer", sample_customer)])) = inl e)
  /\ exists m,
      Formatters.formatSlackMessage sample_number_text sample_toLocaleString
        (Some (JString "carrier.packet.completed")) None (sample_eventData []) = inr m
      /\ (exists color, attachments m = [Formatters.attachment color])
      /\ 6 <= List.length (blocks m) <= 8
      /\ nth_error (blocks m) 1 = Some Formatters.divider.
Proof.
  split.
  - apply (proj1 (formatSlackMessage_needs_carrier_and_customer
                    sample_number_text sample_toLocaleString
                    (Some (JString "carrier.packet.completed")) None
                    (Some (JObject [("customer", sample_customer)])))).
    reflexivity.
  - destruct (proj2 (proj2 (formatSlackMessage_needs_carrier_and_customer
                              sample_number_text sample_toLocaleString
                              (Some (JString "carrier.packet.completed")) None
                              (sample_eventData [])))
                    eq_refl eq_refl eq_refl eq_refl) as [m Hm].
    exists m. split; [exact Hm|].
    exact (proj1 (proj2 (formatSlackMessage_needs_carrier_and_customer
                           sample_number_text sample_toLocaleString
                           (Some (JString "carrier.packet.completed")) None
                           (sample_eventData []))) m Hm).
Defined.

Lemma other_event_types_get_the_default_layout_witness :
  exists m,
    Formatters.formatSlackMessage sample_number_text sample_toLocaleString
      (Some (JString "carrier.insurance.expired")) None (sample_eventData []) = inr m
    /\ Formatters.template sample_number_text (Some (JString "carrier.insurance.expired"))
       = inr "carrier.insurance.expired"
    /\ hd_error (blocks m)
       = Some (Formatters.header_block "📢 MCP Event: carrier.insurance.expired")
    /\ List.length (blocks m) = 6
    /\ attachments m = [Formatters.attachment "#9B59B6"].
Proof.
  eexists. split; [reflexivity|].
  apply (proj1 (other_event_types_get_the_default_layout
                  sample_number_text sample_toLocaleString
                  (Some (JString "carrier.insurance.expired")) None (sample_eventData [])
                  _ eq_refl)).
  reflexivity.
Defined.

Lemma vin_message_layout_witness :
  exists m,
    Formatters.formatSlackMessage sample_number_text sample_toLocaleString
      (Some (JString "carrier.vin_verification.completed")) None
      (sample_eventData
         [("vinVerificationDetail",
           JObject [("vin", JString "3AKJGLD55ESFW7639");
                    ("vinVerificationStatus", JString "VINBelongsToAnotherCarrier");
                    ("otherDOTNumber", JNumber 3083762)])]) = inr m
    /\ List.length (blocks m) = 7
    /\ (exists fields,
          nth_error (blocks m) 3 = Some (Formatters.section_block fields)
          /\ List.length fields = 3)
    /\ attachments m = [Formatters.attachment "#2EB67D"].
Proof.
  eexists. split; [reflexivity|].
  apply (vin_message_layout sample_number_text sample_toLocaleString None
           (sample_eventData
              [("vinVerificationDetail",
                JObject [("vin", JString "3AKJGLD55ESFW7639");
                         ("vinVerificationStatus", JString "VINBelongsToAnotherCarrier");
                         ("otherDOTNumber", JNumber 3083762)])])).
  reflexivity.
Defined.

Lemma user_verification_colour_witness :
  exists m,
    Formatters.formatSlackMessage sample_number_text sample_toLocaleString
      (Some (JString "carrier.user_verification.completed")) None
      (sample_eventData
         [("userVerificationDetail", JObject [("verificationStatus", JString "Pending")])])
    = inr m
    /\ attachments m = [Formatters.attachment "#ECB22E"]
    /\ List.length (blocks m) = 8.
Proof.
  eexists. split; [reflexivity|].
  apply (user_verification_colour sample_number_text sample_toLocaleString None
           (sample_eventData
              [("userVerificationDetail",
                JObject [("verificationStatus", JString "Pending")])])).
  reflexivity.
Defined.

Lemma event_without_carrier_is_acknowledged_not_delivered_witness :
  App.webhookHandler carrierless_request rendering_world connected_state
  = (Returned tt, connected_state,
     [Console log "Received MCP webhook: ${eventType}";
      Respond 200 "Webhook received";
      Console error "Error processing webhook:"]).
Proof.
  apply (event_without_carrier_is_acknowledged_not_delivered
           sample_number_text sample_toLocaleString carrierless_request rendering_world
           connected_state); reflexivity.
Defined.
